(** * The chat proxy of the prompt playground: validation, request
      building and error translation of [POST /api/chat]

    The server is an Express application with one interesting route.  The
    hardened server registers it as

      [app.post('/api/chat', validateChatRequest, async (req, res) => ...)]

    and the first version of the server ([server/index.js]) has the route
    without the validating middleware and with a [catch] block of its own.
    The validator, the handler and the [catch] block of the hardened server
    and the [catch] block of the first server are embedded below, function
    by function, over a small model of the JavaScript values that a request
    body can carry.  The middleware registered for every route (helmet, the
    rate limiter, CORS, the JSON body parser) and the 30 second timer are
    outside the model: a request is its parsed body, and the upstream call
    is a function from the payload to a completion or a rejection. *)

From Stdlib Require Import ZArith List Bool String Ascii Lia.
From Stdlib Require Import DecimalString.
Import ListNotations.
Local Open Scope Z_scope.

(** ** JavaScript numbers

    A JavaScript number is an IEEE-754 binary64 value.  Every finite
    binary64 value is an integer multiple of 2^-1074 (the smallest
    subnormal), so a finite number is stored as that integer: [Fin k] is
    the number k * 2^-1074.  Not every integer is a binary64 value, but the
    order of the numbers is the order of the integers, and the server only
    compares numbers, it never does arithmetic on them.  [Fin 0] is +0 and
    [NegZero] is -0. *)
Module Num.

Inductive number : Type :=
| NaN
| NegInf
| PosInf
| NegZero
| Fin (k : Z).

Definition scale : Z := 2 ^ 1074.

(** The number denoted by an integer literal of the source. *)
Definition of_int (n : Z) : number := Fin (n * scale).

(** The literal [0.7]: its binary64 value is 6305039478318694 * 2^-53. *)
Definition lit_0_7 : number := Fin (6305039478318694 * 2 ^ 1021).

(** Position of a number that is not NaN on the extended line: the two
    zeros share a position. *)
Inductive point : Type :=
| Bottom
| At (k : Z)
| Top.

Definition position (x : number) : option point :=
  match x with
  | NaN => None
  | NegInf => Some Bottom
  | PosInf => Some Top
  | NegZero => Some (At 0)
  | Fin k => Some (At k)
  end.

Definition point_ltb (p q : point) : bool :=
  match p, q with
  | Bottom, Bottom => false
  | Bottom, _ => true
  | _, Bottom => false
  | At a, At b => a <? b
  | At _, Top => true
  | Top, _ => false
  end.

(** [x < y] on numbers: false as soon as one side is NaN. *)
Definition ltb (x y : number) : bool :=
  match position x, position y with
  | Some p, Some q => point_ltb p q
  | _, _ => false
  end.

(** [x > y] is [y < x]. *)
Definition gtb (x y : number) : bool := ltb y x.

Definition is_nan (x : number) : bool :=
  match x with NaN => true | _ => false end.

Definition is_neg_zero (x : number) : bool :=
  match x with NegZero => true | _ => false end.

(** [Math.min(x, y)] on two numbers: NaN if either is NaN, and -0 is
    smaller than +0. *)
Definition min (x y : number) : number :=
  if is_nan x || is_nan y then NaN
  else if ltb x y then x
  else if ltb y x then y
  else if is_neg_zero x then x else y.

(** [Math.max(x, y)] on two numbers: NaN if either is NaN, and +0 is
    larger than -0. *)
Definition max (x y : number) : number :=
  if is_nan x || is_nan y then NaN
  else if ltb x y then y
  else if ltb y x then x
  else if is_neg_zero x then y else x.

(** ToBoolean on a number: +0, -0 and NaN are falsy. *)
Definition truthy (x : number) : bool :=
  match x with
  | NaN | NegZero => false
  | Fin k => negb (k =? 0)
  | NegInf | PosInf => true
  end.

(** [lo <= x <= hi] as a mathematical statement about the value of [x]:
    it fails for NaN. *)
Definition within (lo hi x : number) : Prop :=
  ltb x lo = false /\ ltb hi x = false /\ is_nan x = false.

(** The specification's clamp: the nearest value of the closed range. *)
Definition clamp (lo hi x : number) : number :=
  if ltb x lo then lo else if ltb hi x then hi else x.

End Num.

(** ** JavaScript strings

    A string is its sequence of UTF-16 code units; [length] counts code
    units, as [String.prototype.length] does. *)
Definition jsstring : Type := list N.

(** The string denoted by an ASCII literal of the source. *)
Definition lit (s : string) : jsstring :=
  map N_of_ascii (list_ascii_of_string s).

Fixpoint str_eqb (s t : jsstring) : bool :=
  match s, t with
  | [], [] => true
  | c :: s', d :: t' => N.eqb c d && str_eqb s' t'
  | _, _ => false
  end.

(** WhiteSpace and LineTerminator code points of ECMAScript, the ones
    [String.prototype.trim] removes.  All of them are single code units. *)
Definition is_white_space (c : N) : bool :=
  (existsb (N.eqb c)
     [9; 10; 11; 12; 13; 32; 160; 5760; 8232; 8233; 8239; 8287; 12288; 65279]
   || (N.leb 8192 c && N.leb c 8202))%N.

Fixpoint trimStart (s : jsstring) : jsstring :=
  match s with
  | [] => []
  | c :: s' => if is_white_space c then trimStart s' else s
  end.

Definition trimEnd (s : jsstring) : jsstring := rev (trimStart (rev s)).

(** [s.trim()] *)
Definition trim (s : jsstring) : jsstring := trimEnd (trimStart s).

Definition comma : N := 44%N.

(** [s.split(',')]: one piece more than there are commas; the empty string
    splits into one empty piece. *)
Fixpoint split (s : jsstring) : list jsstring :=
  match s with
  | [] => [[]]
  | c :: s' =>
      if N.eqb c comma then [] :: split s'
      else match split s' with
           | piece :: pieces => (c :: piece) :: pieces
           | [] => [[c]]
           end
  end.

(** [s.length] *)
Definition str_length (s : jsstring) : Z := Z.of_nat (List.length s).

(** ** JavaScript values

    What [express.json()] can put into [req.body], plus [undefined] for a
    field that is absent.  A number field may be any number, NaN included:
    the functions below are defined on values, not on JSON text. *)
#[warnings="-register-all"]
Inductive jsval : Type :=
| JUndefined
| JNull
| JBool (b : bool)
| JNum (n : Num.number)
| JStr (s : jsstring)
| JArr (items : list jsval)
| JObj (fields : list (jsstring * jsval)).

Inductive jstype : Type :=
| TUndefined | TObject | TBoolean | TNumber | TString.

(** [typeof v] *)
Definition typeof (v : jsval) : jstype :=
  match v with
  | JUndefined => TUndefined
  | JNull => TObject
  | JBool _ => TBoolean
  | JNum _ => TNumber
  | JStr _ => TString
  | JArr _ | JObj _ => TObject
  end.

(** ToBoolean *)
Definition truthy (v : jsval) : bool :=
  match v with
  | JUndefined | JNull => false
  | JBool b => b
  | JNum n => Num.truthy n
  | JStr s => match s with [] => false | _ => true end
  | JArr _ | JObj _ => true
  end.

(** [a || b] *)
Definition js_or (a b : jsval) : jsval := if truthy a then a else b.

(** [v === 'literal'] *)
Definition is_string_lit (v : jsval) (s : jsstring) : bool :=
  match v with
  | JStr t => str_eqb t s
  | _ => false
  end.

(** [list.includes(v)] for a list of strings. *)
Definition includes (list : list jsstring) (v : jsval) : bool :=
  existsb (is_string_lit v) list.

(** ** The request and the response

    [req.body] after [express.json()]: the eight fields the route reads.  A
    field that the client did not send is [JUndefined]. *)
Record body : Type := mkBody {
  model : jsval;
  systemPrompt : jsval;
  userPrompt : jsval;
  temperature : jsval;
  maxTokens : jsval;
  presencePenalty : jsval;
  frequencyPenalty : jsval;
  stopSequence : jsval
}.

(** What [res.json(...)] is given: an error envelope (the first server sends
    one without [type] on a missing prompt) or the success envelope. *)
Inductive envelope : Type :=
| Failure (error : jsval) (type : option jsstring)
| Success (content : jsval) (usage : jsval) (served_model : jsval).

Record response : Type := mkResponse {
  status : Z;
  json : envelope
}.

(** [res.status(code).json({ error, type })] *)
Definition reply (code : Z) (error type : string) : response :=
  mkResponse code (Failure (JStr (lit error)) (Some (lit type))).

(** What a middleware does with a request: it answers, or it calls
    [next()] and leaves [req], which it may have changed, to the rest of
    the stack. *)
Inductive middleware_result : Type :=
| Respond (r : response)
| Next (req : body).

(** ** The Parameter Validator: [validateChatRequest] *)

Definition allowedModels : list jsstring :=
  [lit "gpt-3.5-turbo"; lit "gpt-4"; lit "gpt-4-turbo-preview"].

Record numeric_validation : Type := mkValidation {
  field : string;
  value : jsval;
  min : Z;
  max : Z
}.

Definition numericValidations (b : body) : list numeric_validation :=
  [ mkValidation "temperature" (temperature b) 0 2;
    mkValidation "maxTokens" (maxTokens b) 1 4000;
    mkValidation "presencePenalty" (presencePenalty b) 0 2;
    mkValidation "frequencyPenalty" (frequencyPenalty b) 0 2 ].

(** The condition of the loop body,
    [value !== undefined && (typeof value !== 'number' || value < min || value > max)];
    the comparisons are reached by numbers only. *)
Definition out_of_bounds (v : numeric_validation) : bool :=
  match value v with
  | JUndefined => false
  | JNum n =>
      Num.ltb n (Num.of_int (min v)) || Num.gtb n (Num.of_int (max v))
  | _ => true
  end.

Definition decimal (n : Z) : string := NilZero.string_of_int (Z.to_int n).

(** The template literal of the numeric error. *)
Definition bounds_message (v : numeric_validation) : string :=
  (field v ++ " must be a number between " ++ decimal (min v)
     ++ " and " ++ decimal (max v))%string.

(** [!userPrompt || typeof userPrompt !== 'string' || !userPrompt.trim()] *)
Definition userPrompt_missing (v : jsval) : bool :=
  negb (truthy v)
  || match v with
     | JStr s => negb (truthy (JStr (trim s)))
     | _ => true
     end.

(** [userPrompt.length > 8000], on a value known to be a string. *)
Definition userPrompt_too_long (v : jsval) : bool :=
  match v with
  | JStr s => 8000 <? str_length s
  | _ => false
  end.

(** [systemPrompt && (typeof systemPrompt !== 'string' || systemPrompt.length > 4000)] *)
Definition systemPrompt_invalid (v : jsval) : bool :=
  truthy v
  && match v with
     | JStr s => 4000 <? str_length s
     | _ => true
     end.

(** [model && !allowedModels.includes(model)] *)
Definition model_invalid (v : jsval) : bool :=
  truthy v && negb (includes allowedModels v).

(** [stopSequence && typeof stopSequence !== 'string'] *)
Definition stopSequence_invalid (v : jsval) : bool :=
  truthy v && match v with JStr _ => false | _ => true end.

Definition validateChatRequest (b : body) : middleware_result :=
  if userPrompt_missing (userPrompt b) then
    Respond (reply 400
      "User prompt is required and must be a non-empty string"
      "validation_error")
  else if userPrompt_too_long (userPrompt b) then
    Respond (reply 400
      "User prompt too long (max 8000 characters)" "validation_error")
  else if systemPrompt_invalid (systemPrompt b) then
    Respond (reply 400
      "System prompt must be a string with max 4000 characters"
      "validation_error")
  else if model_invalid (model b) then
    Respond (reply 400 "Invalid model specified" "validation_error")
  else
    match find out_of_bounds (numericValidations b) with
    | Some v => Respond (reply 400 (bounds_message v) "validation_error")
    | None =>
        if stopSequence_invalid (stopSequence b) then
          Respond (reply 400
            "Stop sequence must be a string" "validation_error")
        else Next b
    end.

(** ** Exceptions

    The handler body runs inside [try]; a step either yields a value or
    throws an error object, of which the [catch] block reads [code],
    [name] and [message]. *)
Record js_error : Type := mkError {
  code : jsval;
  name : jsval;
  message : jsval
}.

Inductive attempt (A : Type) : Type :=
| Ok (a : A)
| Throw (e : js_error).
Arguments Ok {A} a.
Arguments Throw {A} e.

Definition bind {A B : Type} (x : attempt A) (k : A -> attempt B) : attempt B :=
  match x with
  | Ok a => k a
  | Throw e => Throw e
  end.

Notation "'let*' x ':=' c 'in' k" := (bind c (fun x => k))
  (at level 10, x name, c at level 100, k at level 200).

(** The TypeError of a method call on a value that has no such method.  The
    text of the message is the engine's. *)
Definition TypeError (text : string) : js_error :=
  mkError JUndefined (JStr (lit "TypeError")) (JStr (lit text)).

(** [v.trim()]: only a string has the method (no JSON value carries a
    function). *)
Definition call_trim (what : string) (v : jsval) : attempt jsstring :=
  match v with
  | JStr s => Ok (trim s)
  | JUndefined | JNull =>
      Throw (TypeError "Cannot read properties of undefined (reading 'trim')")
  | _ => Throw (TypeError (what ++ ".trim is not a function"))
  end.

(** [v.split(',')], likewise. *)
Definition call_split (what : string) (v : jsval) : attempt (list jsstring) :=
  match v with
  | JStr s => Ok (split s)
  | JUndefined | JNull =>
      Throw (TypeError "Cannot read properties of undefined (reading 'split')")
  | _ => Throw (TypeError (what ++ ".split is not a function"))
  end.

(** ** The upstream payload *)
Module Message.
Record t : Type := mk {
  role : jsstring;
  content : jsstring
}.
End Message.

Module Payload.
Record t : Type := mk {
  model : jsval;
  messages : list Message.t;
  temperature : Num.number;
  max_tokens : Num.number;
  presence_penalty : Num.number;
  frequency_penalty : Num.number;
  stop : option (list jsstring)
}.
End Payload.

(** The completion object of the upstream API, as far as the handler reads
    it: [choices] holds, for each choice, the value of
    [choice?.message?.content]. *)
Module Completion.
Record t : Type := mk {
  choices : list jsval;
  usage : jsval;
  model : jsval
}.
End Completion.

Inductive outcome : Type :=
| Resolved (c : Completion.t)
| Rejected (e : js_error).

(** What the handler does besides answering. *)
Inductive event : Type :=
| LogRequest (p : Payload.t)
| Create (p : Payload.t)
| LogError (e : js_error).

(** ** What the server takes from its environment *)

(** ToNumber on a string and on an object are the engine's; the server
    relies on them only when a numeric field holds such a value. *)
Class Engine : Type := {
  StringToNumber : jsstring -> Num.number;
  ObjectToNumber : jsval -> Num.number
}.

(** [openai.chat.completions.create(requestBody, { signal })], awaited; the
    abort of the 30 second timer surfaces as a rejection. *)
Class OpenAI : Type := {
  create : Payload.t -> outcome
}.

(** ** The Request Builder and the route handler of the hardened server *)
Section Handler.

Context {engine : Engine} {openai : OpenAI}.

Definition ToNumber (v : jsval) : Num.number :=
  match v with
  | JUndefined => Num.NaN
  | JNull => Num.of_int 0
  | JBool b => if b then Num.of_int 1 else Num.of_int 0
  | JNum n => n
  | JStr s => StringToNumber s
  | JArr _ | JObj _ => ObjectToNumber v
  end.

(** [Math.min(lit, v)] and [Math.max(lit, x)] with an integer literal as
    first argument. *)
Definition Math_min (lit : Z) (v : jsval) : Num.number :=
  Num.min (Num.of_int lit) (ToNumber v).

Definition Math_max (lit : Z) (x : Num.number) : Num.number :=
  Num.max (Num.of_int lit) x.

(** The [messages] array. *)
Definition build_messages (b : body) : attempt (list Message.t) :=
  let* system :=
    (if truthy (systemPrompt b) then
       let* trimmed := call_trim "systemPrompt" (systemPrompt b) in
       if truthy (JStr trimmed)
       then Ok [Message.mk (lit "system") trimmed]
       else Ok []
     else Ok []) in
  let* user := call_trim "userPrompt" (userPrompt b) in
  Ok (system ++ [Message.mk (lit "user") user]).

(** What follows [.split(',')] in the stop pipeline:
    [.map(s => s.trim()).filter(s => s.length > 0 && s.length <= 100).slice(0, 4)] *)
Definition stop_tokens (pieces : list jsstring) : list jsstring :=
  firstn 4
    (filter (fun s => (0 <? str_length s) && (str_length s <=? 100))
       (map trim pieces)).

(** The variable [stop]: [None] is the source's [null]. *)
Definition build_stop (v : jsval) : attempt (option (list jsstring)) :=
  if truthy v then
    let* trimmed := call_trim "stopSequence" v in
    if truthy (JStr trimmed) then
      let* pieces := call_split "stopSequence" v in
      let stop := stop_tokens pieces in
      if Z.of_nat (List.length stop) =? 0 then Ok None else Ok (Some stop)
    else Ok None
  else Ok None.

(** [requestBody], with [stop] added when it is not [null]. *)
Definition requestBody (b : body) : attempt Payload.t :=
  let* messages := build_messages b in
  let* stop := build_stop (stopSequence b) in
  Ok (Payload.mk
        (js_or (model b) (JStr (lit "gpt-3.5-turbo")))
        messages
        (Math_max 0 (Math_min 2 (js_or (temperature b) (JNum Num.lit_0_7))))
        (Math_max 1 (Math_min 4000 (js_or (maxTokens b) (JNum (Num.of_int 1000)))))
        (Math_max 0 (Math_min 2 (js_or (presencePenalty b) (JNum (Num.of_int 0)))))
        (Math_max 0 (Math_min 2 (js_or (frequencyPenalty b) (JNum (Num.of_int 0)))))
        stop).

(** The [catch] block: the Response/Error Translator on a failure. *)
Definition translate_error (error : js_error) : response :=
  if is_string_lit (code error) (lit "insufficient_quota") then
    reply 402 "API quota exceeded. Please check your billing details."
      "quota_exceeded"
  else if is_string_lit (code error) (lit "invalid_api_key") then
    reply 401 "Invalid API key configuration." "invalid_key"
  else if is_string_lit (code error) (lit "model_not_found") then
    reply 400 "The specified model is not available." "model_not_found"
  else if is_string_lit (code error) (lit "rate_limit_exceeded") then
    reply 429 "Rate limit exceeded. Please try again later." "rate_limit"
  else if is_string_lit (name error) (lit "AbortError") then
    reply 408 "Request timeout. Please try again." "timeout"
  else
    reply 500 "An error occurred while processing your request"
      "server_error".

(** [completion.choices[0]?.message?.content || 'No response generated'] *)
Definition responseContent (c : Completion.t) : jsval :=
  js_or (nth 0 (Completion.choices c) JUndefined)
        (JStr (lit "No response generated")).

(** The route handler: the answer and what it did on the way. *)
Definition chat_handler (b : body) : response * list event :=
  match requestBody b with
  | Throw e => (translate_error e, [LogError e])
  | Ok p =>
      match create p with
      | Resolved c =>
          (mkResponse 200
             (Success (responseContent c) (Completion.usage c)
                (Completion.model c)),
           [LogRequest p; Create p])
      | Rejected e => (translate_error e, [LogRequest p; Create p; LogError e])
      end
  end.

(** Express runs the middleware of a route in order; one that answers
    ends the request. *)
Fixpoint dispatch (stack : list (body -> middleware_result))
    (handler : body -> response * list event) (b : body)
    : response * list event :=
  match stack with
  | [] => handler b
  | middleware :: rest =>
      match middleware b with
      | Respond r => (r, [])
      | Next req => dispatch rest handler req
      end
  end.

(** [app.post('/api/chat', validateChatRequest, async (req, res) => ...)] *)
Definition post_api_chat : body -> response * list event :=
  dispatch [validateChatRequest] chat_handler.

(** The four numeric expressions of [requestBody], by name. *)
Definition forwarded_temperature (b : body) : Num.number :=
  Math_max 0 (Math_min 2 (js_or (temperature b) (JNum Num.lit_0_7))).
Definition forwarded_max_tokens (b : body) : Num.number :=
  Math_max 1 (Math_min 4000 (js_or (maxTokens b) (JNum (Num.of_int 1000)))).
Definition forwarded_presence_penalty (b : body) : Num.number :=
  Math_max 0 (Math_min 2 (js_or (presencePenalty b) (JNum (Num.of_int 0)))).
Definition forwarded_frequency_penalty (b : body) : Num.number :=
  Math_max 0 (Math_min 2 (js_or (frequencyPenalty b) (JNum (Num.of_int 0)))).

End Handler.

(** ** The first server, [server/index.js]: its [catch] block *)
Module Legacy.

Definition translate_error (error : js_error) : response :=
  if is_string_lit (code error) (lit "insufficient_quota") then
    reply 402
      "OpenAI API quota exceeded. Please check your billing details."
      "quota_exceeded"
  else if is_string_lit (code error) (lit "invalid_api_key") then
    reply 401 "Invalid OpenAI API key. Please check your configuration."
      "invalid_key"
  else if is_string_lit (code error) (lit "model_not_found") then
    reply 400 "The specified model is not available." "model_not_found"
  else if is_string_lit (code error) (lit "rate_limit_exceeded") then
    reply 429 "Rate limit exceeded. Please try again later." "rate_limit"
  else
    mkResponse 500
      (Failure
         (js_or (message error)
            (JStr (lit "An error occurred while processing your request")))
         (Some (lit "server_error"))).

End Legacy.

(** ** The specification's side of the refinement claims *)

(** "userPrompt absent, not a string, or whitespace-only" *)
Definition prompt_unusable (v : jsval) : Prop :=
  v = JUndefined
  \/ typeof v <> TString
  \/ exists s, v = JStr s /\ forallb is_white_space s = true.

(** "split on commas, trim each token, drop empty tokens, drop tokens
    longer than 100 characters, keep at most the first 4" *)
Definition stop_spec (s : jsstring) : list jsstring :=
  firstn 4
    (filter (fun t => str_length t <=? 100)
       (filter (fun t => negb (str_length t =? 0))
          (map trim (split s)))).

(** "when this list is empty the stop field is omitted" *)
Definition stop_field_spec (s : jsstring) : option (list jsstring) :=
  match stop_spec s with
  | [] => None
  | tokens => Some tokens
  end.

(** The error envelope with a given [type] tag. *)
Definition has_type (r : response) (tag : string) : Prop :=
  exists error, json r = Failure error (Some (lit tag)).

(** A value that a numeric field can hold once it is a number at all. *)
Definition numeric_or_absent (v : jsval) : Prop :=
  v = JUndefined \/ exists n, v = JNum n.

(** "a number lying within the parameter's documented bound", for a field
    that is present *)
Definition within_bound (lo hi : Z) (v : jsval) : Prop :=
  exists n, v = JNum n /\ Num.within (Num.of_int lo) (Num.of_int hi) n.

(** What the validator's numeric rule lets through: an absent field, or a
    number that is not below the minimum and not above the maximum, which
    NaN is not either. *)
Definition passes_bound (lo hi : Z) (v : jsval) : Prop :=
  v = JUndefined
  \/ v = JNum Num.NaN
  \/ within_bound lo hi v.

(** "the forwarded temperature, presence_penalty and frequency_penalty lie
    within [0,2] and the forwarded max_tokens lies within [1,4000]" *)
Definition payload_in_range (p : Payload.t) : Prop :=
  Num.within (Num.of_int 0) (Num.of_int 2) (Payload.temperature p)
  /\ Num.within (Num.of_int 1) (Num.of_int 4000) (Payload.max_tokens p)
  /\ Num.within (Num.of_int 0) (Num.of_int 2) (Payload.presence_penalty p)
  /\ Num.within (Num.of_int 0) (Num.of_int 2) (Payload.frequency_penalty p).

(** The text fields are strings wherever the handler calls a string method
    on them; the validator guarantees it, a caller that bypasses the
    validator has to. *)
Definition text_fields_usable (b : body) : Prop :=
  (exists s, userPrompt b = JStr s)
  /\ (truthy (systemPrompt b) = false \/ exists s, systemPrompt b = JStr s)
  /\ (truthy (stopSequence b) = false \/ exists s, stopSequence b = JStr s).

(** The codes the translator knows. *)
Definition known_codes : list jsstring :=
  [lit "insufficient_quota"; lit "invalid_api_key"; lit "model_not_found";
   lit "rate_limit_exceeded"].

(** The six answers of the translator: HTTP status and [type]. *)
Definition taxonomy : list (Z * string) :=
  [(402, "quota_exceeded"); (401, "invalid_key"); (400, "model_not_found");
   (429, "rate_limit"); (408, "timeout"); (500, "server_error")]%string.

(** An error outside the taxonomy: none of the known codes, and not an
    abort. *)
Definition unexpected (e : js_error) : Prop :=
  includes known_codes (code e) = false
  /\ is_string_lit (name e) (lit "AbortError") = false.

(** ** Concrete requests and environments *)

(** A request that carries a user prompt and nothing else. *)
Definition request (text : string) : body :=
  mkBody JUndefined JUndefined (JStr (lit text)) JUndefined JUndefined
    JUndefined JUndefined JUndefined.

Definition with_model (v : jsval) (b : body) : body :=
  mkBody v (systemPrompt b) (userPrompt b) (temperature b) (maxTokens b)
    (presencePenalty b) (frequencyPenalty b) (stopSequence b).
Definition with_userPrompt (v : jsval) (b : body) : body :=
  mkBody (model b) (systemPrompt b) v (temperature b) (maxTokens b)
    (presencePenalty b) (frequencyPenalty b) (stopSequence b).
Definition with_temperature (v : jsval) (b : body) : body :=
  mkBody (model b) (systemPrompt b) (userPrompt b) v (maxTokens b)
    (presencePenalty b) (frequencyPenalty b) (stopSequence b).
Definition with_maxTokens (v : jsval) (b : body) : body :=
  mkBody (model b) (systemPrompt b) (userPrompt b) (temperature b) v
    (presencePenalty b) (frequencyPenalty b) (stopSequence b).
Definition with_presencePenalty (v : jsval) (b : body) : body :=
  mkBody (model b) (systemPrompt b) (userPrompt b) (temperature b)
    (maxTokens b) v (frequencyPenalty b) (stopSequence b).
Definition with_frequencyPenalty (v : jsval) (b : body) : body :=
  mkBody (model b) (systemPrompt b) (userPrompt b) (temperature b)
    (maxTokens b) (presencePenalty b) v (stopSequence b).
Definition with_stopSequence (v : jsval) (b : body) : body :=
  mkBody (model b) (systemPrompt b) (userPrompt b) (temperature b)
    (maxTokens b) (presencePenalty b) (frequencyPenalty b) v.

(** An engine for the closed examples; their numeric fields are numbers or
    absent, so it is never consulted. *)
Definition plain_engine : Engine :=
  {| StringToNumber := fun _ => Num.NaN; ObjectToNumber := fun _ => Num.NaN |}.

(** An upstream that answers every call with a fixed completion. *)
Definition answering : OpenAI :=
  {| create := fun p =>
       Resolved (Completion.mk [JStr (lit "Gravity pulls masses together.")]
                   JNull (Payload.model p)) |}.

(** An upstream that fails every call with a given error. *)
Definition failing (e : js_error) : OpenAI :=
  {| create := fun _ => Rejected e |}.

(** Two upstream errors outside the taxonomy. *)
Definition connection_refused : js_error :=
  mkError (JStr (lit "ECONNREFUSED")) (JStr (lit "Error"))
    (JStr (lit "connect ECONNREFUSED 10.0.0.5:443")).
Definition bad_gateway : js_error :=
  mkError JUndefined (JStr (lit "Error"))
    (JStr (lit "502 Bad Gateway from upstream host")).

(** The errors of the taxonomy. *)
Definition quota_error : js_error :=
  mkError (JStr (lit "insufficient_quota")) (JStr (lit "Error"))
    (JStr (lit "You exceeded your current quota (org-1234)")).
Definition abort_error : js_error :=
  mkError JUndefined (JStr (lit "AbortError"))
    (JStr (lit "Request was aborted.")).

(** The four numeric parameters, to state a property once for all of
    them. *)
Inductive numeric_field : Type :=
| Temperature | MaxTokens | PresencePenalty | FrequencyPenalty.

Definition get_field (f : numeric_field) (b : body) : jsval :=
  match f with
  | Temperature => temperature b
  | MaxTokens => maxTokens b
  | PresencePenalty => presencePenalty b
  | FrequencyPenalty => frequencyPenalty b
  end.

Definition set_field (f : numeric_field) (v : jsval) (b : body) : body :=
  match f with
  | Temperature => with_temperature v b
  | MaxTokens => with_maxTokens v b
  | PresencePenalty => with_presencePenalty v b
  | FrequencyPenalty => with_frequencyPenalty v b
  end.

Definition payload_field (f : numeric_field) (p : Payload.t) : Num.number :=
  match f with
  | Temperature => Payload.temperature p
  | MaxTokens => Payload.max_tokens p
  | PresencePenalty => Payload.presence_penalty p
  | FrequencyPenalty => Payload.frequency_penalty p
  end.

(** The documented defaults: 0.7, 1000, 0, 0. *)
Definition default_of (f : numeric_field) : Num.number :=
  match f with
  | Temperature => Num.lit_0_7
  | MaxTokens => Num.of_int 1000
  | PresencePenalty | FrequencyPenalty => Num.of_int 0
  end.

(** The documented bounds: [0,2], [1,4000], [0,2], [0,2]. *)
Definition bounds_of (f : numeric_field) : Z * Z :=
  match f with
  | MaxTokens => (1, 4000)
  | Temperature | PresencePenalty | FrequencyPenalty => (0, 2)
  end.

(** The request the page sends for its preset "Precise & Focused"
    ([testConfigs] of [App.tsx]: temperature 0.0, 50 tokens, no penalties)
    with the prompt "Explain gravity"; the page sends empty strings for a
    system prompt and a stop sequence that were left blank. *)
Definition precise_preset : body :=
  mkBody (JStr (lit "gpt-3.5-turbo")) (JStr (lit ""))
    (JStr (lit "Explain gravity"))
    (JNum (Num.of_int 0)) (JNum (Num.of_int 50))
    (JNum (Num.of_int 0)) (JNum (Num.of_int 0)) (JStr (lit "")).

(** Requests with one numeric field out of the ordinary. *)
Definition nan_temperature : body :=
  with_temperature (JNum Num.NaN) (request "Explain gravity").
Definition zero_tokens : body :=
  with_maxTokens (JNum (Num.of_int 0)) (request "Explain gravity").
Definition hot : body :=
  with_temperature (JNum (Num.of_int 5)) (request "Explain gravity").
Definition cold : body :=
  with_temperature (JNum (Num.of_int (-1))) (request "Explain gravity").
Definition many_tokens : body :=
  with_maxTokens (JNum (Num.of_int 999999)) (request "Explain gravity").

(** A request whose model is the empty string. *)
Definition unnamed_model : body :=
  with_model (JStr (lit "")) (request "Explain gravity").

(** A request with a model outside the allow-list. *)
Definition unknown_model : body :=
  with_model (JStr (lit "gpt-5")) (request "Explain gravity").

(** The two stop sequences of the specification's examples. *)
Definition six_stops : body :=
  with_stopSequence (JStr (lit "a,,b,c,d,e")) (request "Explain gravity").
Definition blank_stops : body :=
  with_stopSequence (JStr (lit ",, ,")) (request "Explain gravity").

(** A prompt of 8000 letters and one trailing blank: 8001 code units, 8000
    once trimmed. *)
Definition padded_prompt : jsstring :=
  repeat 97%N (Z.to_nat 8000) ++ [32%N].
Definition padded : body :=
  with_userPrompt (JStr padded_prompt) (request "").

(** A request with a blank prompt. *)
Definition blank : body := request "   ".

(** A request that bypassed the validator with every numeric field out of
    its range: temperature 5, maxTokens 999999, presencePenalty -1,
    frequencyPenalty Infinity. *)
Definition out_of_range : body :=
  mkBody JUndefined JUndefined (JStr (lit "Explain gravity"))
    (JNum (Num.of_int 5)) (JNum (Num.of_int 999999))
    (JNum (Num.of_int (-1))) (JNum Num.PosInf) JUndefined.

(** A present value that the numeric rule of the validator refuses: not a
    number, or a number below the minimum or above the maximum. *)
Definition violates_bound (lo hi : Z) (v : jsval) : Prop :=
  (v <> JUndefined /\ typeof v <> TNumber)
  \/ exists n, v = JNum n
       /\ (Num.ltb n (Num.of_int lo) = true
           \/ Num.ltb (Num.of_int hi) n = true).

(** ** Server configuration read from the environment

    [process.env] maps a variable to a string, or to [undefined] when it is
    not set. *)

(** [process.env.NODE_ENV !== 'production'] *)
Definition isDevelopment (NODE_ENV : option jsstring) : bool :=
  negb match NODE_ENV with
       | Some v => str_eqb v (lit "production")
       | None => false
       end.

(** The [origin] of [corsOptions]:
    [isDevelopment ? [...] : process.env.ALLOWED_ORIGINS?.split(',') || [...]].
    The array that [split] returns is truthy, so the fallback is reached
    only through the optional chaining. *)
Definition corsOrigin (NODE_ENV ALLOWED_ORIGINS : option jsstring)
    : list jsstring :=
  if isDevelopment NODE_ENV then
    [lit "http://localhost:5173"; lit "http://localhost:3000"]
  else
    match option_map split ALLOWED_ORIGINS with
    | Some origins => origins
    | None => [lit "https://yourdomain.com"]
    end.

(** [pieces.join(',')], the inverse of [split] that the properties of
    [corsOrigin] are stated with. *)
Fixpoint join (pieces : list jsstring) : jsstring :=
  match pieces with
  | [] => []
  | [piece] => piece
  | piece :: rest => piece ++ comma :: join rest
  end.

(** ** JSON on the wire

    What [JSON.parse(JSON.stringify(v))] makes of a value: NaN and the
    infinities become [null], -0 becomes 0, an [undefined] item of an array
    becomes [null] and an [undefined] field of an object is dropped. *)
Definition wire_number (n : Num.number) : jsval :=
  match n with
  | Num.NaN | Num.NegInf | Num.PosInf => JNull
  | Num.NegZero => JNum (Num.Fin 0)
  | Num.Fin k => JNum (Num.Fin k)
  end.

Fixpoint wire (v : jsval) : jsval :=
  match v with
  | JNum n => wire_number n
  | JArr items =>
      JArr (map (fun item => match wire item with
                             | JUndefined => JNull
                             | sent => sent
                             end) items)
  | JObj fields =>
      JObj ((fix go (fs : list (jsstring * jsval)) : list (jsstring * jsval) :=
               match fs with
               | [] => []
               | (key, item) :: rest =>
                   match wire item with
                   | JUndefined => go rest
                   | sent => (key, sent) :: go rest
                   end
               end) fields)
  | other => other
  end.

(** ** The first server's route, [server/index.js] *)
Module LegacyRoute.
Section Route.

Context {engine : Engine} {openai : OpenAI}.

(** [!userPrompt || !userPrompt.trim()], evaluated inside [try]: the call
    of [trim] throws on a truthy value that is not a string. *)
Definition prompt_missing (v : jsval) : attempt bool :=
  if negb (truthy v) then Ok true
  else
    let* trimmed := call_trim "userPrompt" v in
    Ok (negb (truthy (JStr trimmed))).

(** The variable [stop]: no limit on the length or the number of tokens. *)
Definition build_stop (v : jsval) : attempt (option (list jsstring)) :=
  if truthy v then
    let* trimmed := call_trim "stopSequence" v in
    if truthy (JStr trimmed) then
      let* pieces := call_split "stopSequence" v in
      let stop := filter (fun s => 0 <? str_length s) (map trim pieces) in
      if Z.of_nat (List.length stop) =? 0 then Ok None else Ok (Some stop)
    else Ok None
  else Ok None.

Definition requestBody (b : body) : attempt Payload.t :=
  let* messages := build_messages b in
  let* stop := build_stop (stopSequence b) in
  Ok (Payload.mk
        (js_or (model b) (JStr (lit "gpt-3.5-turbo")))
        messages
        (Math_max 0 (Math_min 2 (js_or (temperature b) (JNum Num.lit_0_7))))
        (Math_max 1 (Math_min 4000 (js_or (maxTokens b) (JNum (Num.of_int 1000)))))
        (Math_max 0 (Math_min 2 (js_or (presencePenalty b) (JNum (Num.of_int 0)))))
        (Math_max 0 (Math_min 2 (js_or (frequencyPenalty b) (JNum (Num.of_int 0)))))
        stop).

(** [app.post('/api/chat', async (req, res) => ...)] *)
Definition post_api_chat (b : body) : response * list event :=
  match prompt_missing (userPrompt b) with
  | Throw e => (Legacy.translate_error e, [LogError e])
  | Ok true =>
      (mkResponse 400 (Failure (JStr (lit "User prompt is required")) None),
       [])
  | Ok false =>
      match requestBody b with
      | Throw e => (Legacy.translate_error e, [LogError e])
      | Ok p =>
          match create p with
          | Resolved c =>
              (mkResponse 200
                 (Success (responseContent c) (Completion.usage c)
                    (Completion.model c)),
               [LogRequest p; Create p])
          | Rejected e =>
              (Legacy.translate_error e, [LogRequest p; Create p; LogError e])
          end
      end
  end.

End Route.
End LegacyRoute.

(** ** The page, [App.tsx]: its state and what its buttons do *)

(** [needle] at the start of [s]. *)
Fixpoint str_prefix (needle s : jsstring) : bool :=
  match needle, s with
  | [], _ => true
  | c :: needle', d :: s' => N.eqb c d && str_prefix needle' s'
  | _ :: _, [] => false
  end.

(** [s.includes(needle)] *)
Fixpoint str_includes (needle s : jsstring) : bool :=
  str_prefix needle s
  || match s with
     | [] => false
     | _ :: s' => str_includes needle s'
     end.

Module TestConfig.
Record t : Type := mk {
  name : string;
  description : string;
  temperature : Num.number;
  maxTokens : Num.number;
  presencePenalty : Num.number;
  frequencyPenalty : Num.number
}.
End TestConfig.

(** What the page reads of a parsed answer: [data.success], [data.content],
    [data.usage] and [data.error]; a field the answer does not have reads
    as [undefined]. *)
Module Data.
Record t : Type := mk {
  success : jsval;
  content : jsval;
  usage : jsval;
  error : jsval
}.
End Data.

(** [await response.json()] on what the server gave to [res.json]. *)
Definition received (r : response) : Data.t :=
  match json r with
  | Success content usage _ =>
      Data.mk (JBool true) (wire content) (wire usage) JUndefined
  | Failure error _ => Data.mk JUndefined JUndefined JUndefined (wire error)
  end.

(** [await fetch(...)] followed by [await response.json()]: an answer, or
    an exception (no connection, or a body that is not JSON). *)
Inductive fetched : Type :=
| Answered (r : response)
| Unreachable.

Module App.

(** The state of the component, without what is presentation only
    ([darkMode], [copied]).  The literals 1.2 and 1.5 of the presets are
    the binary64 values 5404319552844595 * 2^-52 and 3 * 2^-1. *)
Record state : Type := mkState {
  systemPrompt : jsstring;
  userPrompt : jsstring;
  temperature : Num.number;
  maxTokens : Num.number;
  presencePenalty : Num.number;
  frequencyPenalty : Num.number;
  stopSequence : jsstring;
  model : jsstring;
  output : jsval;
  isRunning : bool;
  error : jsval;
  usage : jsval
}.

Definition lit_1_2 : Num.number := Num.Fin (5404319552844595 * 2 ^ 1022).
Definition lit_1_5 : Num.number := Num.Fin (3 * 2 ^ 1073).

(** The [useState] defaults. *)
Definition initial : state :=
  mkState (lit "You are a helpful assistant.") (lit "")
    Num.lit_0_7 (Num.of_int 1000) (Num.of_int 0) (Num.of_int 0)
    (lit "") (lit "gpt-3.5-turbo") (JStr (lit "")) false JNull JNull.

Definition testConfigs : list TestConfig.t :=
  [ TestConfig.mk "Precise & Focused" "Low temperature, short responses"
      (Num.of_int 0) (Num.of_int 50) (Num.of_int 0) (Num.of_int 0);
    TestConfig.mk "Balanced & Diverse"
      "Moderate creativity, varied vocabulary"
      Num.lit_0_7 (Num.of_int 150) lit_1_5 lit_1_5;
    TestConfig.mk "Creative & Expansive" "High creativity, longer responses"
      lit_1_2 (Num.of_int 300) (Num.of_int 0) lit_1_5 ].

Definition applyTestConfig (config : TestConfig.t) (st : state) : state :=
  mkState (systemPrompt st) (userPrompt st)
    (TestConfig.temperature config) (TestConfig.maxTokens config)
    (TestConfig.presencePenalty config) (TestConfig.frequencyPenalty config)
    (stopSequence st) (model st) (output st) (isRunning st) (error st)
    (usage st).

Definition clearAll (st : state) : state :=
  mkState (lit "You are a helpful assistant.") (lit "")
    Num.lit_0_7 (Num.of_int 1000) (Num.of_int 0) (Num.of_int 0)
    (lit "") (lit "gpt-3.5-turbo") (JStr (lit "")) (isRunning st) JNull JNull.

(** The four setters of the result: [setOutput], [setIsRunning], [setError]
    and [setUsage]. *)
Definition setResult (output : jsval) (isRunning : bool) (error usage : jsval)
    (st : state) : state :=
  mkState (systemPrompt st) (userPrompt st) (temperature st) (maxTokens st)
    (presencePenalty st) (frequencyPenalty st) (stopSequence st) (model st)
    output isRunning error usage.

(** The body the server parses from
    [JSON.stringify({ model, systemPrompt, userPrompt, temperature, ... })]. *)
Definition requestOf (st : state) : body :=
  mkBody (JStr (model st)) (JStr (systemPrompt st)) (JStr (userPrompt st))
    (wire_number (temperature st)) (wire_number (maxTokens st))
    (wire_number (presencePenalty st)) (wire_number (frequencyPenalty st))
    (JStr (stopSequence st)).

(** [handleRunPrompt]: the state once the call has settled, and the
    requests that were sent. *)
Definition handleRunPrompt (fetch : body -> fetched) (st : state)
    : state * list body :=
  if negb (truthy (JStr (trim (userPrompt st)))) then
    (setResult (output st) (isRunning st)
       (JStr (lit "Please enter a user prompt")) (usage st) st,
     [])
  else
    let request := requestOf st in
    match fetch request with
    | Answered r =>
        let data := received r in
        if truthy (Data.success data) && truthy (Data.content data) then
          (setResult (Data.content data) false JNull
             (js_or (Data.usage data) JNull) st,
           [request])
        else
          (setResult (JStr (lit "")) false
             (js_or (Data.error data) (JStr (lit "An unknown error occurred")))
             JNull st,
           [request])
    | Unreachable =>
        (setResult (JStr (lit "")) false
           (JStr (lit "Failed to connect to the server. Make sure the backend is running."))
           JNull st,
         [request])
    end.

(** The condition of [getErrorMessage]: [error.includes('API key')], under
    which the page shows how to configure the key. *)
Definition showsKeyHelp (error : jsstring) : bool :=
  str_includes (lit "API key") error.

(** A numeric field of the state, by parameter. *)
Definition field (f : numeric_field) (st : state) : Num.number :=
  match f with
  | Temperature => temperature st
  | MaxTokens => maxTokens st
  | PresencePenalty => presencePenalty st
  | FrequencyPenalty => frequencyPenalty st
  end.

End App.

(** [fetch] against the hardened server. *)
Definition hardened_server {engine : Engine} {openai : OpenAI}
    : body -> fetched :=
  fun b => Answered (fst (post_api_chat b)).

(** ** The statements of the further properties *)

(** What the validator asks of a request, rule by rule. *)
Definition acceptable (b : body) : Prop :=
  (exists s, userPrompt b = JStr s /\ trim s <> [] /\ str_length s <= 8000)
  /\ (truthy (systemPrompt b) = false
      \/ exists s, systemPrompt b = JStr s /\ str_length s <= 4000)
  /\ (truthy (model b) = false
      \/ exists m, model b = JStr m /\ In m allowedModels)
  /\ (forall f, passes_bound (fst (bounds_of f)) (snd (bounds_of f))
                  (get_field f b))
  /\ (truthy (stopSequence b) = false \/ exists s, stopSequence b = JStr s).

(** A string that [trim] leaves alone and that holds no comma. *)
Definition clean_token (s : jsstring) : Prop :=
  trim s = s /\ forallb (fun c => negb (N.eqb c comma)) s = true.

(** The upstream calls of a trace. *)
Definition calls (trace : list event) : list Payload.t :=
  flat_map (fun e => match e with Create p => [p] | _ => [] end) trace.

(** Every failure answer of the hardened route: status, type, message. *)
Definition catalogue : list (Z * string * string) :=
  [ (400, "validation_error",
     "User prompt is required and must be a non-empty string");
    (400, "validation_error", "User prompt too long (max 8000 characters)");
    (400, "validation_error",
     "System prompt must be a string with max 4000 characters");
    (400, "validation_error", "Invalid model specified");
    (400, "validation_error", "temperature must be a number between 0 and 2");
    (400, "validation_error", "maxTokens must be a number between 1 and 4000");
    (400, "validation_error",
     "presencePenalty must be a number between 0 and 2");
    (400, "validation_error",
     "frequencyPenalty must be a number between 0 and 2");
    (400, "validation_error", "Stop sequence must be a string");
    (402, "quota_exceeded",
     "API quota exceeded. Please check your billing details.");
    (401, "invalid_key", "Invalid API key configuration.");
    (400, "model_not_found", "The specified model is not available.");
    (429, "rate_limit", "Rate limit exceeded. Please try again later.");
    (408, "timeout", "Request timeout. Please try again.");
    (500, "server_error", "An error occurred while processing your request")
  ]%string.

(** What the hardened server adds to the first server's [stop]: at most
    100 code units a token, at most 4 tokens. *)
Definition capped (stop : option (list jsstring)) : option (list jsstring) :=
  match stop with
  | None => None
  | Some tokens =>
      match firstn 4 (filter (fun t => str_length t <=? 100) tokens) with
      | [] => None
      | kept => Some kept
      end
  end.

(** The completion has the type the upstream API documents: the content
    of a choice is a string or null. *)
Definition typed_upstream (openai : OpenAI) : Prop :=
  forall p c, create p = Resolved c ->
    Forall (fun content =>
              content = JNull \/ content = JUndefined
              \/ exists s, content = JStr s)
           (Completion.choices c).

(** The page's fields are within what its controls allow: the sliders run
    over [0,2], [1,4000], [0,2], [0,2] and the model comes from the three
    options of the select. *)
Definition within_controls (st : App.state) : Prop :=
  In (App.model st) allowedModels
  /\ forall f, Num.within (Num.of_int (fst (bounds_of f)))
                 (Num.of_int (snd (bounds_of f))) (App.field f st).

(** The text the user typed fits the limits of the validator. *)
Definition text_fits (st : App.state) : Prop :=
  trim (App.userPrompt st) <> []
  /\ str_length (App.userPrompt st) <= 8000
  /\ str_length (App.systemPrompt st) <= 4000.

(** Page states for the closed examples. *)
Definition typed (text : string) : App.state :=
  App.mkState (lit "You are a helpful assistant.") (lit text)
    Num.lit_0_7 (Num.of_int 1000) (Num.of_int 0) (Num.of_int 0)
    (lit "") (lit "gpt-3.5-turbo") (JStr (lit "")) false JNull JNull.

Definition typed_with_nan (text : string) : App.state :=
  App.mkState (lit "You are a helpful assistant.") (lit text)
    Num.NaN (Num.of_int 1000) (Num.of_int 0) (Num.of_int 0)
    (lit "") (lit "gpt-3.5-turbo") (JStr (lit "")) false JNull JNull.

(** Requests for the closed examples. *)
Definition numeric_prompt : body :=
  with_userPrompt (JNum (Num.of_int 5)) (request "").
Definition with_systemPrompt (v : jsval) (b : body) : body :=
  mkBody (model b) v (userPrompt b) (temperature b) (maxTokens b)
    (presencePenalty b) (frequencyPenalty b) (stopSequence b).
Definition guided : body :=
  with_systemPrompt (JStr (lit "  Be brief.  "))
    (with_stopSequence (JStr (lit " END , a,b,c,d"))
       (request "  Explain gravity ")).

(** What [express.json()] can put into the numeric fields of [req.body]:
    JSON text has no notation for NaN, so [JSON.parse] never yields it (an
    overflowing literal such as 1e999 does parse, to Infinity, and -0
    parses to -0). *)
Definition json_parsed (b : body) : Prop :=
  forall f, get_field f b <> JNum Num.NaN.

(** * Properties *)

(** ** Numbers *)
Module NumFacts.
Import Num.

Lemma scale_pos : 0 < scale.
Proof. reflexivity. Qed.

Lemma lit_0_7_pos : 0 < 6305039478318694 * 2 ^ 1021.
Proof. reflexivity. Qed.

Lemma lit_0_7_below_2 : 6305039478318694 * 2 ^ 1021 < 2 * scale.
Proof. reflexivity. Qed.

Ltac order :=
  unfold within, clamp, max, min, ltb, gtb, position, point_ltb, is_nan,
    is_neg_zero, truthy in *;
  simpl in *;
  repeat (match goal with
          | |- context [?a <? ?b] => destruct (Z.ltb_spec a b)
          | H : context [?a <? ?b] |- _ => destruct (Z.ltb_spec a b)
          | |- context [?a =? ?b] => destruct (Z.eqb_spec a b)
          | H : context [?a =? ?b] |- _ => destruct (Z.eqb_spec a b)
          end; simpl in *);
  repeat split; try congruence; try lia; try (f_equal; lia).

(** [Math.max(lo, Math.min(hi, x))] lands in the range for every number
    but NaN. *)
Lemma max_min_within (a b : Z) (x : number) :
  a <= b -> is_nan x = false ->
  within (Fin a) (Fin b) (max (Fin a) (min (Fin b) x)).
Proof.
  intros Hab Hx. destruct x; try discriminate; order.
Qed.

(** On a number that is neither NaN nor a zero, and bounds that are not
    below zero, the nested call is the clamp. *)
Lemma max_min_clamp (a b : Z) (x : number) :
  0 <= a <= b -> truthy x = true ->
  max (Fin a) (min (Fin b) x) = clamp (Fin a) (Fin b) x.
Proof.
  intros Hab Hx. destruct x; try discriminate; order.
Qed.

Lemma mul_scale_le (a b : Z) : a <= b -> a * scale <= b * scale.
Proof.
  intros H. apply Z.mul_le_mono_nonneg_r; [pose proof scale_pos; lia | exact H].
Qed.

End NumFacts.

(** ** Strings *)
Section StringFacts.

Lemma str_eqb_eq (s t : jsstring) : str_eqb s t = true <-> s = t.
Proof.
  revert t. induction s as [|c s IH]; intros [|d t]; simpl;
    try (split; [discriminate | congruence]); try tauto.
  rewrite andb_true_iff, N.eqb_eq, IH. split.
  - intros [-> ->]. reflexivity.
  - intros H. injection H as -> ->. auto.
Qed.

Lemma trimStart_blank (s : jsstring) :
  trimStart s = [] <-> forallb is_white_space s = true.
Proof.
  induction s as [|c s IH]; simpl; [tauto|].
  destruct (is_white_space c); simpl; [exact IH|].
  split; discriminate.
Qed.

Lemma trimStart_head (s r : jsstring) (c : N) :
  trimStart s = c :: r -> is_white_space c = false.
Proof.
  induction s as [|d s IH]; simpl; [discriminate|].
  destruct (is_white_space d) eqn:Hd; [exact IH|].
  intros H. injection H as -> _. exact Hd.
Qed.

Lemma forallb_rev {A : Type} (p : A -> bool) (l : list A) :
  forallb p (rev l) = forallb p l.
Proof.
  induction l as [|a l IH]; simpl; [reflexivity|].
  rewrite forallb_app, IH. simpl. rewrite andb_true_r. apply andb_comm.
Qed.

(** [s.trim()] is empty exactly for a string of white space. *)
Lemma trim_blank (s : jsstring) :
  trim s = [] <-> forallb is_white_space s = true.
Proof.
  unfold trim, trimEnd. split.
  - intros H.
    assert (Hrev : trimStart (rev (trimStart s)) = []).
    { destruct (trimStart (rev (trimStart s))) as [|c r]; [reflexivity|].
      simpl in H. destruct (rev r); discriminate. }
    apply trimStart_blank in Hrev. rewrite forallb_rev in Hrev.
    destruct (trimStart s) as [|c r] eqn:Hs.
    + apply trimStart_blank. exact Hs.
    + apply trimStart_head in Hs. simpl in Hrev. rewrite Hs in Hrev.
      discriminate.
  - intros H. apply trimStart_blank in H. rewrite H. reflexivity.
Qed.

(** A string without a comma is its own single piece. *)
Lemma split_no_comma (s : jsstring) :
  forallb (fun c => negb (N.eqb c comma)) s = true -> split s = [s].
Proof.
  induction s as [|c s IH]; simpl; [reflexivity|].
  destruct (N.eqb c comma); simpl; [discriminate|].
  intros H. rewrite (IH H). reflexivity.
Qed.

Lemma white_space_not_comma (c : N) :
  is_white_space c = true -> N.eqb c comma = false.
Proof.
  destruct (N.eqb_spec c comma) as [->|]; [discriminate | reflexivity].
Qed.

Lemma split_blank (s : jsstring) :
  forallb is_white_space s = true -> split s = [s].
Proof.
  intros H. apply split_no_comma.
  rewrite forallb_forall in *. intros c Hc.
  rewrite (white_space_not_comma c (H c Hc)). reflexivity.
Qed.

Lemma filter_filter {A : Type} (p q : A -> bool) (l : list A) :
  filter q (filter p l) = filter (fun x => p x && q x) l.
Proof.
  induction l as [|a l IH]; simpl; [reflexivity|].
  destruct (p a); simpl; [destruct (q a); rewrite IH; reflexivity | exact IH].
Qed.

End StringFacts.

(** ** The validator *)
Section ValidatorFacts.

Lemma reply_has_type (c : Z) (error tag : string) :
  has_type (reply c error tag) tag.
Proof. eexists. reflexivity. Qed.

(** Every answer of the validator is a 400 [validation_error]. *)
Lemma validate_respond (b : body) (r : response) :
  validateChatRequest b = Respond r ->
  status r = 400 /\ has_type r "validation_error".
Proof.
  unfold validateChatRequest.
  repeat match goal with
         | |- context [if ?c then _ else _] => destruct c
         | |- context [match find ?p ?l with _ => _ end] => destruct (find p l)
         end;
  intros H; inversion H; subst; split;
    solve [reflexivity | apply reply_has_type].
Qed.

(** What [next()] means for the request: every rule passed, and [req] is
    passed on as it came. *)
Lemma validate_next (b req : body) :
  validateChatRequest b = Next req ->
  req = b
  /\ userPrompt_missing (userPrompt b) = false
  /\ userPrompt_too_long (userPrompt b) = false
  /\ systemPrompt_invalid (systemPrompt b) = false
  /\ model_invalid (model b) = false
  /\ find out_of_bounds (numericValidations b) = None
  /\ stopSequence_invalid (stopSequence b) = false.
Proof.
  unfold validateChatRequest.
  destruct (userPrompt_missing _); [discriminate|].
  destruct (userPrompt_too_long _); [discriminate|].
  destruct (systemPrompt_invalid _); [discriminate|].
  destruct (model_invalid _); [discriminate|].
  destruct (find _ _); [discriminate|].
  destruct (stopSequence_invalid _); [discriminate|].
  intros H. injection H as <-. repeat split.
Qed.

Lemma validate_next_iff (b : body) :
  validateChatRequest b = Next b <->
  userPrompt_missing (userPrompt b) = false
  /\ userPrompt_too_long (userPrompt b) = false
  /\ systemPrompt_invalid (systemPrompt b) = false
  /\ model_invalid (model b) = false
  /\ find out_of_bounds (numericValidations b) = None
  /\ stopSequence_invalid (stopSequence b) = false.
Proof.
  split.
  - intros H. apply validate_next in H. tauto.
  - intros (H1 & H2 & H3 & H4 & H5 & H6). unfold validateChatRequest.
    rewrite H1, H2, H3, H4, H5, H6. reflexivity.
Qed.

(** The loop over [numericValidations] finds nothing exactly when none of
    the four checks fires. *)
Lemma numeric_checks_pass (b : body) :
  find out_of_bounds (numericValidations b) = None <->
  out_of_bounds (mkValidation "temperature" (temperature b) 0 2) = false
  /\ out_of_bounds (mkValidation "maxTokens" (maxTokens b) 1 4000) = false
  /\ out_of_bounds (mkValidation "presencePenalty" (presencePenalty b) 0 2) = false
  /\ out_of_bounds (mkValidation "frequencyPenalty" (frequencyPenalty b) 0 2) = false.
Proof.
  unfold numericValidations. simpl.
  repeat match goal with
         | |- context [if ?c then _ else _] => destruct c
         end;
  split; try discriminate; try tauto; intros (? & ? & ? & ?); discriminate.
Qed.

(** A prompt that passed the first rule is a string that is not blank. *)
Lemma userPrompt_present (v : jsval) :
  userPrompt_missing v = false ->
  exists s, v = JStr s /\ trim s <> [].
Proof.
  unfold userPrompt_missing. destruct v; simpl;
    rewrite ?orb_true_r; try discriminate.
  intros H. apply orb_false_elim in H as [_ H].
  exists s. split; [reflexivity|]. intros E. rewrite E in H. discriminate.
Qed.

Lemma prompt_unusable_missing (v : jsval) :
  prompt_unusable v -> userPrompt_missing v = true.
Proof.
  unfold userPrompt_missing. intros [-> | [H | (s & -> & H)]].
  - reflexivity.
  - destruct v; simpl; rewrite ?orb_true_r; try reflexivity.
    exfalso. apply H. reflexivity.
  - apply trim_blank in H. simpl. rewrite H. apply orb_true_r.
Qed.

(** A system prompt or a stop sequence that passed its rule is falsy or a
    string. *)
Lemma systemPrompt_usable (v : jsval) :
  systemPrompt_invalid v = false ->
  truthy v = false \/ exists s, v = JStr s.
Proof.
  unfold systemPrompt_invalid. destruct (truthy v); [|auto].
  destruct v; simpl; try discriminate. eauto.
Qed.

Lemma stopSequence_usable (v : jsval) :
  stopSequence_invalid v = false ->
  truthy v = false \/ exists s, v = JStr s.
Proof.
  unfold stopSequence_invalid. destruct (truthy v); [|auto].
  destruct v; simpl; try discriminate. eauto.
Qed.

End ValidatorFacts.

(** ** The Request Builder *)
Section BuilderFacts.

Context {engine : Engine}.

(** Whatever payload the builder produces carries these expressions. *)
Lemma requestBody_fields (b : body) (p : Payload.t) :
  requestBody b = Ok p ->
  Payload.model p = js_or (model b) (JStr (lit "gpt-3.5-turbo"))
  /\ build_messages b = Ok (Payload.messages p)
  /\ Payload.temperature p = forwarded_temperature b
  /\ Payload.max_tokens p = forwarded_max_tokens b
  /\ Payload.presence_penalty p = forwarded_presence_penalty b
  /\ Payload.frequency_penalty p = forwarded_frequency_penalty b
  /\ build_stop (stopSequence b) = Ok (Payload.stop p).
Proof.
  unfold requestBody, bind.
  destruct (build_messages b) as [msgs|]; [|discriminate].
  destruct (build_stop (stopSequence b)) as [stop|]; [|discriminate].
  intros H. injection H as <-. simpl. repeat split.
Qed.

(** The stop pipeline on a string is the specification's. *)
Lemma build_stop_string (s : jsstring) :
  build_stop (JStr s) = Ok (stop_field_spec s).
Proof.
  unfold build_stop, stop_field_spec, stop_spec.
  rewrite filter_filter.
  assert (Hfun : forall l : list jsstring,
    filter (fun t => negb (str_length t =? 0) && (str_length t <=? 100)) l
    = filter (fun t => (0 <? str_length t) && (str_length t <=? 100)) l).
  { intros l. apply filter_ext. intros t. f_equal. unfold str_length.
    destruct (Z.eqb_spec (Z.of_nat (List.length t)) 0);
      destruct (Z.ltb_spec 0 (Z.of_nat (List.length t))); simpl; lia. }
  rewrite Hfun. clear Hfun.
  destruct s as [|c s]; [reflexivity|].
  cbn [truthy call_trim bind].
  destruct (trim (c :: s)) as [|d t] eqn:Htrim.
  - apply trim_blank in Htrim. rewrite (split_blank _ Htrim).
    apply trim_blank in Htrim. cbn [map]. rewrite Htrim. reflexivity.
  - cbn [call_split bind]. unfold stop_tokens.
    destruct (firstn 4 _) as [|tok toks]; [reflexivity|].
    cbn [List.length]. rewrite Nat2Z.inj_succ.
    destruct (Z.eqb_spec (Z.succ (Z.of_nat (List.length toks))) 0); [lia|].
    reflexivity.
Qed.

Lemma build_stop_falsy (v : jsval) :
  truthy v = false -> build_stop v = Ok None.
Proof. unfold build_stop. intros ->. reflexivity. Qed.

(** The message list ends with the trimmed user prompt. *)
Lemma build_messages_string (b : body) (s : jsstring) :
  userPrompt b = JStr s ->
  truthy (systemPrompt b) = false \/ (exists t, systemPrompt b = JStr t) ->
  exists system,
    build_messages b = Ok (system ++ [Message.mk (lit "user") (trim s)])
    /\ (system = [] \/
        exists t, systemPrompt b = JStr t /\ trim t <> []
                  /\ system = [Message.mk (lit "system") (trim t)]).
Proof.
  intros Hu Hs. unfold build_messages. rewrite Hu.
  destruct (truthy (systemPrompt b)) eqn:Ht.
  - destruct Hs as [Hs | [t Hs]]; [discriminate|]. rewrite Hs.
    cbn [call_trim bind]. destruct (trim t) as [|c r] eqn:Htrim.
    + exists []. split; [reflexivity | left; reflexivity].
    + exists [Message.mk (lit "system") (c :: r)].
      split; [reflexivity|]. right. exists t. rewrite Htrim.
      repeat split. discriminate.
  - exists []. split; [reflexivity | left; reflexivity].
Qed.

(** The builder returns a payload for every request whose text fields are
    strings where the handler calls string methods on them. *)
Lemma requestBody_total (b : body) (s : jsstring) :
  userPrompt b = JStr s ->
  truthy (systemPrompt b) = false \/ (exists t, systemPrompt b = JStr t) ->
  truthy (stopSequence b) = false \/ (exists t, stopSequence b = JStr t) ->
  exists p, requestBody b = Ok p
    /\ (exists system,
          Payload.messages p = system ++ [Message.mk (lit "user") (trim s)]).
Proof.
  intros Hu Hs Hstop.
  destruct (build_messages_string b s Hu Hs) as (system & Hm & _).
  assert (Hst : exists stop, build_stop (stopSequence b) = Ok stop).
  { destruct Hstop as [H | [t H]].
    - exists None. apply build_stop_falsy, H.
    - rewrite H. eexists. apply build_stop_string. }
  destruct Hst as [stop Hst].
  unfold requestBody, bind. rewrite Hm, Hst.
  eexists. split; [reflexivity|]. exists system. reflexivity.
Qed.

(** A request the validator let through is one the builder can build. *)
Lemma accepted_builds (b req : body) :
  validateChatRequest b = Next req ->
  exists s p, userPrompt b = JStr s /\ trim s <> []
    /\ requestBody req = Ok p
    /\ (exists system,
          Payload.messages p = system ++ [Message.mk (lit "user") (trim s)]).
Proof.
  intros H. apply validate_next in H as (-> & Hu & _ & Hs & _ & _ & Hstop).
  apply userPrompt_present in Hu as (s & Hu & Hne).
  apply systemPrompt_usable in Hs. apply stopSequence_usable in Hstop.
  destruct (requestBody_total b s Hu Hs Hstop) as (p & Hp & Hm).
  exists s, p. auto.
Qed.

End BuilderFacts.

(** ** The route *)
Section RouteFacts.

Context {engine : Engine} {openai : OpenAI}.

Lemma post_api_chat_rejected (b : body) (r : response) :
  validateChatRequest b = Respond r -> post_api_chat b = (r, []).
Proof. unfold post_api_chat, dispatch. intros ->. reflexivity. Qed.

Lemma post_api_chat_accepted (b req : body) :
  validateChatRequest b = Next req -> post_api_chat b = chat_handler req.
Proof. unfold post_api_chat, dispatch. intros ->. reflexivity. Qed.

(** C1: a request that fails a rule of the validator is answered by the
    validator with HTTP 400 and type [validation_error], and that is all
    that happens: the route does nothing else, so the Request Builder does
    not run and nothing is sent upstream.  A user prompt that is absent, not
    a string, or made of white space only fails the first rule. *)
Theorem validation_failure_is_terminal (b : body) :
  (forall r, validateChatRequest b = Respond r ->
     status r = 400 /\ has_type r "validation_error"
     /\ post_api_chat b = (r, []))
  /\ (prompt_unusable (userPrompt b) ->
      exists r, validateChatRequest b = Respond r).
Proof.
  split.
  - intros r H. destruct (validate_respond b r H) as [Hs Ht].
    auto using post_api_chat_rejected.
  - intros H. apply prompt_unusable_missing in H.
    unfold validateChatRequest. rewrite H. eexists. reflexivity.
Qed.

Lemma translate_error_code (e : js_error) (c : jsstring) :
  code e = JStr c -> is_string_lit (code e) c = true.
Proof. intros ->. simpl. apply str_eqb_eq. reflexivity. Qed.

Lemma unexpected_codes (e : js_error) :
  includes known_codes (code e) = false ->
  is_string_lit (code e) (lit "insufficient_quota") = false
  /\ is_string_lit (code e) (lit "invalid_api_key") = false
  /\ is_string_lit (code e) (lit "model_not_found") = false
  /\ is_string_lit (code e) (lit "rate_limit_exceeded") = false.
Proof.
  unfold includes, known_codes. cbn [existsb].
  rewrite !orb_false_iff. tauto.
Qed.

(** C5: the [catch] block maps an error to one of six fixed answers, by
    its code first and its name second: insufficient_quota gives 402
    quota_exceeded, invalid_api_key 401 invalid_key, model_not_found 400
    model_not_found, rate_limit_exceeded 429 rate_limit, an AbortError
    without one of these codes 408 timeout, and every other error 500
    server_error; and the answer of the route to an accepted request whose
    upstream call fails is this answer. *)
Theorem upstream_errors_have_fixed_answers (e : js_error) :
  (exists c tag, In (c, tag) taxonomy
     /\ status (translate_error e) = c /\ has_type (translate_error e) tag)
  /\ (code e = JStr (lit "insufficient_quota") ->
     status (translate_error e) = 402
     /\ has_type (translate_error e) "quota_exceeded")
  /\ (code e = JStr (lit "invalid_api_key") ->
     status (translate_error e) = 401
     /\ has_type (translate_error e) "invalid_key")
  /\ (code e = JStr (lit "model_not_found") ->
     status (translate_error e) = 400
     /\ has_type (translate_error e) "model_not_found")
  /\ (code e = JStr (lit "rate_limit_exceeded") ->
     status (translate_error e) = 429
     /\ has_type (translate_error e) "rate_limit")
  /\ (includes known_codes (code e) = false ->
      name e = JStr (lit "AbortError") ->
     status (translate_error e) = 408
     /\ has_type (translate_error e) "timeout")
  /\ (unexpected e ->
     status (translate_error e) = 500
     /\ has_type (translate_error e) "server_error")
  /\ (forall b req p,
        validateChatRequest b = Next req ->
        requestBody req = Ok p ->
        create p = Rejected e ->
        fst (post_api_chat b) = translate_error e).
Proof.
  assert (known : forall c, code e = JStr c ->
                  is_string_lit (code e) c = true)
    by apply translate_error_code.
  assert (answered : forall c err tag,
            status (reply c err tag) = c /\ has_type (reply c err tag) tag)
    by (intros; split; [reflexivity | apply reply_has_type]).
  split; [|split; [|split; [|split; [|split; [|split; [|split]]]]]].
  - unfold translate_error.
    repeat match goal with
           | |- context [if ?c then _ else _] => destruct c
           end;
    do 2 eexists; (split; [|apply answered]); simpl; tauto.
  - intros H. unfold translate_error. rewrite (known _ H). apply answered.
  - intros H. unfold translate_error. rewrite (known _ H), H.
    apply answered.
  - intros H. unfold translate_error. rewrite (known _ H), H.
    apply answered.
  - intros H. unfold translate_error. rewrite (known _ H), H.
    apply answered.
  - intros H Hn. apply unexpected_codes in H as (H1 & H2 & H3 & H4).
    unfold translate_error. rewrite H1, H2, H3, H4, Hn. apply answered.
  - intros [H Hn]. apply unexpected_codes in H as (H1 & H2 & H3 & H4).
    unfold translate_error. rewrite H1, H2, H3, H4, Hn. apply answered.
  - intros b req p Hv Hp Hc. rewrite (post_api_chat_accepted b req Hv).
    unfold chat_handler. rewrite Hp, Hc. reflexivity.
Qed.

(** In the hardened server every error outside the taxonomy gets the same
    answer, whatever its message. *)
Lemma unexpected_errors_indistinguishable (e1 e2 : js_error) :
  unexpected e1 -> unexpected e2 ->
  translate_error e1 = translate_error e2
  /\ translate_error e1
     = reply 500 "An error occurred while processing your request"
         "server_error".
Proof.
  intros [H1 N1] [H2 N2].
  apply unexpected_codes in H1 as (A1 & A2 & A3 & A4).
  apply unexpected_codes in H2 as (B1 & B2 & B3 & B4).
  unfold translate_error.
  rewrite A1, A2, A3, A4, N1, B1, B2, B3, B4, N2. split; reflexivity.
Qed.

End RouteFacts.

(** ** The numeric fields of the payload *)
Section NumericFacts.

Context {engine : Engine}.

Lemma truthy_not_nan (n : Num.number) :
  Num.truthy n = true -> Num.is_nan n = false.
Proof. destruct n; simpl; congruence. Qed.

(** The nested [Math.max(lo, Math.min(hi, v || dflt))] lands in the range
    whenever [v] is a number or absent. *)
Lemma forwarded_within (lo hi : Z) (v : jsval) (dflt : Num.number) :
  lo <= hi -> Num.is_nan dflt = false -> numeric_or_absent v ->
  Num.within (Num.of_int lo) (Num.of_int hi)
    (Math_max lo (Math_min hi (js_or v (JNum dflt)))).
Proof.
  intros Hle Hd Hv. unfold Math_max, Math_min, Num.of_int.
  apply NumFacts.max_min_within; [apply NumFacts.mul_scale_le, Hle|].
  unfold js_or. destruct Hv as [-> | [n ->]]; simpl; [exact Hd|].
  destruct (Num.truthy n) eqn:Hn; simpl; [apply truthy_not_nan, Hn | exact Hd].
Qed.

(** On a truthy number it is the clamp of the specification. *)
Lemma forwarded_clamp (lo hi : Z) (n dflt : Num.number) :
  0 <= lo <= hi -> Num.truthy n = true ->
  Math_max lo (Math_min hi (js_or (JNum n) (JNum dflt)))
  = Num.clamp (Num.of_int lo) (Num.of_int hi) n.
Proof.
  intros Hle Hn. unfold Math_max, Math_min, Num.of_int, js_or. simpl.
  rewrite Hn. simpl. apply NumFacts.max_min_clamp; [|exact Hn].
  pose proof NumFacts.scale_pos. split; [nia|].
  apply NumFacts.mul_scale_le. lia.
Qed.

(** On a falsy value it is the default. *)
Lemma forwarded_defaults (b : body) :
  (truthy (temperature b) = false ->
     forwarded_temperature b = Num.lit_0_7)
  /\ (truthy (maxTokens b) = false ->
     forwarded_max_tokens b = Num.of_int 1000)
  /\ (truthy (presencePenalty b) = false ->
     forwarded_presence_penalty b = Num.of_int 0)
  /\ (truthy (frequencyPenalty b) = false ->
     forwarded_frequency_penalty b = Num.of_int 0).
Proof.
  unfold forwarded_temperature, forwarded_max_tokens,
    forwarded_presence_penalty, forwarded_frequency_penalty, js_or.
  repeat split; intros ->; vm_compute; reflexivity.
Qed.

(** C7: whatever numbers reach the Request Builder in the four numeric
    fields, absent fields included, the payload it builds has temperature,
    presence_penalty and frequency_penalty within [0,2] and max_tokens
    within [1,4000]; and it does build a payload whenever the text fields
    are usable, validated or not. *)
Theorem builder_never_forwards_out_of_bound (b : body) :
  numeric_or_absent (temperature b) ->
  numeric_or_absent (maxTokens b) ->
  numeric_or_absent (presencePenalty b) ->
  numeric_or_absent (frequencyPenalty b) ->
  (forall p, requestBody b = Ok p -> payload_in_range p)
  /\ (text_fields_usable b ->
      exists p, requestBody b = Ok p /\ payload_in_range p).
Proof.
  intros Ht Hm Hp Hf.
  assert (range : forall p, requestBody b = Ok p -> payload_in_range p).
  { intros p H.
    apply requestBody_fields in H as (_ & _ & H1 & H2 & H3 & H4 & _).
    unfold payload_in_range. rewrite H1, H2, H3, H4.
    split; [|split; [|split]];
      apply forwarded_within; solve [assumption | reflexivity | lia]. }
  split; [exact range|].
  intros ([s Hu] & Hs & Hstop).
  destruct (requestBody_total b s Hu Hs Hstop) as (p & Hb & _).
  exists p. auto.
Qed.

End NumericFacts.

(** ** The numeric rule of the validator against the builder *)
Section NumericRule.

Context {engine : Engine}.

Lemma out_of_bounds_passes (name : string) (v : jsval) (lo hi : Z) :
  out_of_bounds (mkValidation name v lo hi) = false <-> passes_bound lo hi v.
Proof.
  unfold out_of_bounds, passes_bound, within_bound, Num.within, Num.gtb.
  simpl. split.
  - destruct v; try discriminate; [auto|].
    intros H. apply orb_false_elim in H as [H1 H2].
    destruct n; auto; right; right; eexists; repeat split; eauto.
  - intros [-> | [-> | (n & -> & H1 & H2 & _)]]; try reflexivity.
    rewrite H1, H2. reflexivity.
Qed.

Lemma out_of_bounds_violates (name : string) (v : jsval) (lo hi : Z) :
  violates_bound lo hi v -> out_of_bounds (mkValidation name v lo hi) = true.
Proof.
  unfold out_of_bounds, violates_bound, Num.gtb. simpl.
  intros [[H1 H2] | (n & -> & [H | H])].
  - destruct v; try reflexivity; [contradiction H1 | contradiction H2];
      reflexivity.
  - rewrite H. reflexivity.
  - rewrite H. apply orb_true_r.
Qed.

(** A request that is not passed on is answered 400 [validation_error]. *)
Lemma not_next_respond (b : body) :
  (forall req, validateChatRequest b <> Next req) ->
  exists r, validateChatRequest b = Respond r
    /\ status r = 400 /\ has_type r "validation_error".
Proof.
  intros H. destruct (validateChatRequest b) as [r|req] eqn:Hv.
  - exists r. split; [reflexivity | apply (validate_respond b r Hv)].
  - exfalso. apply (H req). reflexivity.
Qed.

(** The numeric rule on every value, NaN included: a request is passed on
    only if each numeric parameter is absent, or a number that is neither
    below its minimum nor above its maximum, which holds of the numbers
    within the bound and of NaN; a present value that is not a number, or
    a number below the minimum or above the maximum, is answered 400
    [validation_error]; and the validator passes the request on as it
    came, it clamps nothing. *)
Theorem validator_checks_bounds_without_clamping (b : body) :
  (forall req, validateChatRequest b = Next req ->
     req = b
     /\ forall f, passes_bound (fst (bounds_of f)) (snd (bounds_of f))
                    (get_field f b))
  /\ (forall f, violates_bound (fst (bounds_of f)) (snd (bounds_of f))
                  (get_field f b) ->
      exists r, validateChatRequest b = Respond r
        /\ status r = 400 /\ has_type r "validation_error").
Proof.
  split.
  - intros req H. apply validate_next in H as (-> & _ & _ & _ & _ & H & _).
    split; [reflexivity|]. apply numeric_checks_pass in H.
    destruct H as (H1 & H2 & H3 & H4).
    intros []; simpl; eapply out_of_bounds_passes; eassumption.
  - intros f H. apply not_next_respond. intros req Hv.
    apply validate_next in Hv as (_ & _ & _ & _ & _ & Hn & _).
    apply numeric_checks_pass in Hn. destruct Hn as (H1 & H2 & H3 & H4).
    destruct f; simpl in H;
      eapply out_of_bounds_violates in H;
      [rewrite H1 in H | rewrite H2 in H | rewrite H3 in H | rewrite H4 in H];
      discriminate.
Qed.

(** Called on a body built in-process, the function lets NaN through: NaN
    is a number, it is not within [0,2], and the request is passed on.  No
    request parsed from JSON is such a body. *)
Lemma nan_temperature_passes_validation :
  validateChatRequest nan_temperature = Next nan_temperature
  /\ temperature nan_temperature = JNum Num.NaN
  /\ ~ within_bound 0 2 (temperature nan_temperature).
Proof.
  split; [reflexivity|]. split; [reflexivity|].
  intros (n & H & _ & _ & Hn). injection H as <-. discriminate.
Qed.

Lemma set_field_other (f : numeric_field) (v : jsval) (b : body) :
  userPrompt (set_field f v b) = userPrompt b
  /\ systemPrompt (set_field f v b) = systemPrompt b
  /\ model (set_field f v b) = model b
  /\ stopSequence (set_field f v b) = stopSequence b.
Proof. destruct f; repeat split. Qed.

(** The numeric rule treats NaN as it treats an absent field. *)
Lemma nan_as_absent (f : numeric_field) (b : body) :
  find out_of_bounds (numericValidations (set_field f JUndefined b)) = None ->
  find out_of_bounds (numericValidations (set_field f (JNum Num.NaN) b)) = None.
Proof.
  rewrite !numeric_checks_pass. destruct f; simpl; tauto.
Qed.

(** C9: a request with NaN in a numeric parameter is passed on by the
    validator whenever the same request without that parameter is, and the
    builder then forwards the default of that parameter: 0.7 for
    temperature, 1000 for maxTokens, 0 for the penalties. *)
Theorem nan_is_accepted_and_defaulted (f : numeric_field) (b : body) :
  validateChatRequest (set_field f JUndefined b)
    = Next (set_field f JUndefined b) ->
  validateChatRequest (set_field f (JNum Num.NaN) b)
    = Next (set_field f (JNum Num.NaN) b)
  /\ exists p, requestBody (set_field f (JNum Num.NaN) b) = Ok p
       /\ payload_field f p = default_of f.
Proof.
  intros H.
  assert (Hnan : validateChatRequest (set_field f (JNum Num.NaN) b)
                 = Next (set_field f (JNum Num.NaN) b)).
  { apply validate_next_iff in H. apply validate_next_iff.
    destruct (set_field_other f JUndefined b) as (E1 & E2 & E3 & E4).
    destruct (set_field_other f (JNum Num.NaN) b) as (F1 & F2 & F3 & F4).
    rewrite E1, E2, E3, E4 in H. rewrite F1, F2, F3, F4.
    destruct H as (H1 & H2 & H3 & H4 & H5 & H6).
    repeat split; try assumption. apply nan_as_absent, H5. }
  split; [exact Hnan|].
  destruct (accepted_builds _ _ Hnan) as (s & p & _ & _ & Hp & _).
  exists p. split; [exact Hp|].
  apply requestBody_fields in Hp as (_ & _ & T & M & P & F & _).
  destruct (forwarded_defaults (set_field f (JNum Num.NaN) b))
    as (DT & DM & DP & DF).
  destruct f; simpl.
  - rewrite T. apply DT. reflexivity.
  - rewrite M. apply DM. reflexivity.
  - rewrite P. apply DP. reflexivity.
  - rewrite F. apply DF. reflexivity.
Qed.

(** C2 at the page's own preset: temperature 0 is within [0,2] and passes
    the validator, yet the builder forwards 0.7, not 0, because [0 || 0.7]
    is 0.7; by the same expression a maxTokens of 0 is forwarded as 1000,
    not as the clamped 1.  Values out of range on the other side are
    clamped as documented. *)
Theorem zero_is_forwarded_as_the_default :
  validateChatRequest precise_preset = Next precise_preset
  /\ (exists p, requestBody precise_preset = Ok p
        /\ Payload.temperature p = Num.lit_0_7
        /\ Num.clamp (Num.of_int 0) (Num.of_int 2) (Num.of_int 0)
           = Num.of_int 0
        /\ Payload.temperature p <> Num.of_int 0)
  /\ forwarded_max_tokens zero_tokens = Num.of_int 1000
  /\ Num.clamp (Num.of_int 1) (Num.of_int 4000) (Num.of_int 0) = Num.of_int 1
  /\ forwarded_temperature hot = Num.of_int 2
  /\ forwarded_temperature cold = Num.of_int 0
  /\ forwarded_max_tokens many_tokens = Num.of_int 4000.
Proof.
  split; [reflexivity|]. split.
  - eexists. split; [reflexivity|]. split; [reflexivity|].
    split; [reflexivity|]. simpl. discriminate.
  - repeat split; vm_compute; reflexivity.
Qed.

End NumericRule.

(** ** Stop sequences, the model and the prompt *)
Section FieldFacts.

Context {engine : Engine} {openai : OpenAI}.

(** C4: for a string [stopSequence] the [stop] of the payload is the list
    obtained by splitting on commas, trimming, dropping the empty tokens and
    those over 100 code units, and keeping the first 4, and the field is
    left out when that list is empty; an accepted request does get such a
    payload.  "a,,b,c,d,e" gives a, b, c, d and ",, ," gives no field. *)
Theorem stop_is_the_specified_pipeline (b : body) (s : jsstring) :
  stopSequence b = JStr s ->
  build_stop (stopSequence b) = Ok (stop_field_spec s)
  /\ (forall p, requestBody b = Ok p -> Payload.stop p = stop_field_spec s)
  /\ (forall req, validateChatRequest b = Next req ->
      exists p, requestBody req = Ok p /\ Payload.stop p = stop_field_spec s)
  /\ build_stop (JStr (lit "a,,b,c,d,e"))
     = Ok (Some [lit "a"; lit "b"; lit "c"; lit "d"])
  /\ build_stop (JStr (lit ",, ,")) = Ok None.
Proof.
  intros Hs.
  assert (Hb : build_stop (stopSequence b) = Ok (stop_field_spec s))
    by (rewrite Hs; apply build_stop_string).
  assert (Hp : forall p, requestBody b = Ok p ->
                         Payload.stop p = stop_field_spec s).
  { intros p H. apply requestBody_fields in H as (_ & _ & _ & _ & _ & _ & H).
    rewrite Hb in H. injection H as <-. reflexivity. }
  split; [exact Hb|]. split; [exact Hp|]. split; [|split; reflexivity].
  intros req Hv. destruct (accepted_builds b req Hv) as (_ & p & _ & _ & H & _).
  exists p. split; [exact H|].
  apply validate_next in Hv as (-> & _). apply Hp, H.
Qed.

Lemma includes_In (l : list jsstring) (v : jsval) :
  includes l v = true -> exists m, v = JStr m /\ In m l.
Proof.
  unfold includes. intros H. apply existsb_exists in H as (m & Hin & H).
  destruct v; try discriminate. simpl in H. apply str_eqb_eq in H as ->.
  exists m. auto.
Qed.

(** C8, as the code has it: a request whose model is truthy is passed on
    only if the model is one of the three allowed strings, which the
    builder then forwards, and is answered 400 [validation_error] if it is
    not; a model that is absent or otherwise falsy (null, the empty string,
    0, false) is not checked, and the builder forwards 'gpt-3.5-turbo' for
    it. *)
Theorem model_is_checked_when_truthy (b : body) :
  (truthy (model b) = true ->
     (forall req, validateChatRequest b = Next req ->
        exists m, model b = JStr m /\ In m allowedModels
          /\ forall p, requestBody req = Ok p -> Payload.model p = JStr m)
     /\ (includes allowedModels (model b) = false ->
         exists r, validateChatRequest b = Respond r
           /\ status r = 400 /\ has_type r "validation_error"))
  /\ (truthy (model b) = false ->
      model_invalid (model b) = false
      /\ forall p, requestBody b = Ok p ->
           Payload.model p = JStr (lit "gpt-3.5-turbo")).
Proof.
  split.
  - intros Ht. split.
    + intros req Hv. apply validate_next in Hv as (-> & _ & _ & _ & Hm & _).
      unfold model_invalid in Hm. rewrite Ht, andb_true_l in Hm.
      apply negb_false_iff, includes_In in Hm as (m & Hm & Hin).
      exists m. repeat split; try assumption.
      intros p Hp. apply requestBody_fields in Hp as (-> & _).
      unfold js_or. rewrite Ht. exact Hm.
    + intros Hm. apply not_next_respond. intros req Hv.
      apply validate_next in Hv as (_ & _ & _ & _ & H & _).
      unfold model_invalid in H. rewrite Ht, Hm in H. discriminate.
  - intros Hf. split.
    + unfold model_invalid. rewrite Hf. reflexivity.
    + intros p Hp. apply requestBody_fields in Hp as (-> & _).
      unfold js_or. rewrite Hf. reflexivity.
Qed.

(** C10: the limit of 8000 is on the length of the prompt as it came: a
    prompt of more than 8000 code units is answered 400 [validation_error]
    whatever its trimmed length; and for a request that is passed on, the
    payload that is built and sent upstream ends with a user message that
    holds the trimmed prompt. *)
Theorem prompt_limit_is_on_the_raw_string (b : body) :
  (forall s, userPrompt b = JStr s -> 8000 < str_length s ->
     exists r, validateChatRequest b = Respond r
       /\ status r = 400 /\ has_type r "validation_error")
  /\ (forall req, validateChatRequest b = Next req ->
      exists s p system,
        userPrompt b = JStr s /\ str_length s <= 8000
        /\ requestBody req = Ok p
        /\ Payload.messages p = system ++ [Message.mk (lit "user") (trim s)]
        /\ In (Create p) (snd (post_api_chat b))).
Proof.
  split.
  - intros s Hu Hlen. apply not_next_respond. intros req Hv.
    apply validate_next in Hv as (_ & _ & H & _). rewrite Hu in H.
    simpl in H. apply Z.ltb_ge in H. lia.
  - intros req Hv.
    destruct (accepted_builds b req Hv) as (s & p & Hu & _ & Hp & system & Hm).
    exists s, p, system. repeat split; try assumption.
    + pose proof Hv as Hn.
      apply validate_next in Hn as (_ & _ & H & _). rewrite Hu in H.
      simpl in H. apply Z.ltb_ge in H. exact H.
    + rewrite (post_api_chat_accepted b req Hv). unfold chat_handler.
      rewrite Hp. destruct (create p); simpl; auto.
Qed.

End FieldFacts.

(** C8 as it is stated fails: the empty string is a model outside the
    allow-list, the validator passes the request on, and the builder
    replaces the model by 'gpt-3.5-turbo'. *)
Lemma empty_model_is_replaced :
  model unnamed_model = JStr (lit "")
  /\ includes allowedModels (model unnamed_model) = false
  /\ validateChatRequest unnamed_model = Next unnamed_model
  /\ exists p, @requestBody plain_engine unnamed_model = Ok p
       /\ Payload.model p = JStr (lit "gpt-3.5-turbo").
Proof.
  repeat split. eexists. split; reflexivity.
Qed.

(** ** The first server *)

(** The first server answers an error outside the taxonomy with the
    error's own message whenever it has one. *)
Lemma legacy_answer_carries_message (e : js_error) :
  unexpected e -> truthy (message e) = true ->
  Legacy.translate_error e
  = mkResponse 500 (Failure (message e) (Some (lit "server_error"))).
Proof.
  intros [H _] Hm. apply unexpected_codes in H as (H1 & H2 & H3 & H4).
  unfold Legacy.translate_error, js_or. rewrite H1, H2, H3, H4, Hm.
  reflexivity.
Qed.

(** C6 on the two servers: a refused connection and a bad gateway are both
    outside the taxonomy; the hardened server answers them alike, the first
    server ([server/index.js]) puts the message of each into its answer, so
    the two answers differ. *)
Theorem first_server_leaks_error_message :
  unexpected connection_refused /\ unexpected bad_gateway
  /\ translate_error connection_refused = translate_error bad_gateway
  /\ status (Legacy.translate_error connection_refused) = 500
  /\ json (Legacy.translate_error connection_refused)
     = Failure (JStr (lit "connect ECONNREFUSED 10.0.0.5:443"))
         (Some (lit "server_error"))
  /\ Legacy.translate_error connection_refused
     <> Legacy.translate_error bad_gateway.
Proof.
  repeat split. discriminate.
Qed.

(** ** The properties at concrete requests *)

(** A blank prompt is answered by the validator and nothing else happens. *)
Lemma blank_prompt_is_rejected :
  exists r, validateChatRequest blank = Respond r
    /\ status r = 400 /\ has_type r "validation_error"
    /\ @post_api_chat plain_engine answering blank = (r, []).
Proof.
  destruct (@validation_failure_is_terminal plain_engine answering blank)
    as [H1 H2].
  destruct H2 as [r Hr].
  { right; right. eexists. split; reflexivity. }
  exists r. split; [exact Hr | apply H1, Hr].
Defined.

(** A quota error is answered 402 and an abort 408. *)
Lemma quota_and_abort_answers :
  (status (translate_error quota_error) = 402
   /\ has_type (translate_error quota_error) "quota_exceeded")
  /\ (status (translate_error abort_error) = 408
      /\ has_type (translate_error abort_error) "timeout").
Proof.
  split.
  - apply (@upstream_errors_have_fixed_answers plain_engine answering
             quota_error). reflexivity.
  - apply (@upstream_errors_have_fixed_answers plain_engine answering
             abort_error); reflexivity.
Defined.

(** Numbers out of range everywhere still give a payload in range. *)
Lemma out_of_range_is_clamped :
  exists p, @requestBody plain_engine out_of_range = Ok p
    /\ payload_in_range p.
Proof.
  apply (@builder_never_forwards_out_of_bound plain_engine out_of_range).
  - right. eexists. reflexivity.
  - right. eexists. reflexivity.
  - right. eexists. reflexivity.
  - right. eexists. reflexivity.
  - split; [eexists; reflexivity|]. split; left; reflexivity.
Defined.

(** A temperature of 5 is refused by the validator. *)
Lemma hot_is_rejected :
  exists r, validateChatRequest hot = Respond r
    /\ status r = 400 /\ has_type r "validation_error".
Proof.
  apply (validator_checks_bounds_without_clamping hot) with (f := Temperature).
  right. eexists. split; [reflexivity|]. right. vm_compute. reflexivity.
Defined.

(** A temperature of NaN is passed on and forwarded as 0.7. *)
Lemma nan_temperature_is_forwarded_as_default :
  validateChatRequest nan_temperature = Next nan_temperature
  /\ exists p, @requestBody plain_engine nan_temperature = Ok p
       /\ Payload.temperature p = Num.lit_0_7.
Proof.
  apply (@nan_is_accepted_and_defaulted plain_engine Temperature
           (request "Explain gravity")).
  reflexivity.
Defined.

(** The stop sequence "a,,b,c,d,e" on an accepted request. *)
Lemma six_stops_keep_four :
  exists p, @requestBody plain_engine six_stops = Ok p
    /\ Payload.stop p = Some [lit "a"; lit "b"; lit "c"; lit "d"].
Proof.
  destruct (@stop_is_the_specified_pipeline plain_engine six_stops
              (lit "a,,b,c,d,e") eq_refl) as (_ & _ & H & _).
  apply (H six_stops). reflexivity.
Defined.

(** A model outside the allow-list is refused. *)
Lemma unknown_model_is_rejected :
  exists r, validateChatRequest unknown_model = Respond r
    /\ status r = 400 /\ has_type r "validation_error".
Proof.
  destruct (@model_is_checked_when_truthy plain_engine unknown_model)
    as [H _].
  destruct (H eq_refl) as [_ Hr]. apply Hr. reflexivity.
Defined.

(** The padded prompt is refused although its trimmed length is 8000. *)
Lemma padded_prompt_is_rejected :
  str_length (trim padded_prompt) <= 8000
  /\ exists r, validateChatRequest padded = Respond r
       /\ status r = 400 /\ has_type r "validation_error".
Proof.
  split.
  - apply Z.leb_le. vm_compute. reflexivity.
  - destruct (@prompt_limit_is_on_the_raw_string plain_engine answering padded)
      as [H _].
    apply (H padded_prompt); [reflexivity|].
    apply Z.ltb_lt. vm_compute. reflexivity.
Defined.

(** ** What the builder does with a numeric parameter, in general *)
Section ClampFacts.

Context {engine : Engine}.

(** A numeric parameter that is a truthy number (a number other than 0, -0
    and NaN) is forwarded clamped to its documented range; one that is falsy
    (absent, null, 0, -0, NaN, false or the empty string) is forwarded as
    its default. *)
Theorem truthy_numbers_are_clamped (b : body) (p : Payload.t)
    (f : numeric_field) :
  requestBody b = Ok p ->
  (forall n, get_field f b = JNum n -> Num.truthy n = true ->
     payload_field f p
     = Num.clamp (Num.of_int (fst (bounds_of f)))
         (Num.of_int (snd (bounds_of f))) n)
  /\ (truthy (get_field f b) = false -> payload_field f p = default_of f).
Proof.
  intros H. apply requestBody_fields in H as (_ & _ & T & M & P & F & _).
  destruct (forwarded_defaults b) as (DT & DM & DP & DF).
  split.
  - intros n Hn Ht.
    destruct f; simpl in *;
      [rewrite T; unfold forwarded_temperature
      |rewrite M; unfold forwarded_max_tokens
      |rewrite P; unfold forwarded_presence_penalty
      |rewrite F; unfold forwarded_frequency_penalty];
      rewrite Hn; apply forwarded_clamp; solve [assumption | lia].
  - destruct f; simpl; intros Hf;
      [rewrite T | rewrite M | rewrite P | rewrite F]; auto.
Qed.

End ClampFacts.

(** Temperature 5 is forwarded as 2 and maxTokens 999999 as 4000. *)
Lemma out_of_range_is_forwarded_at_the_bound :
  exists p, @requestBody plain_engine out_of_range = Ok p
    /\ Payload.temperature p = Num.of_int 2
    /\ Payload.max_tokens p = Num.of_int 4000.
Proof.
  eexists. split; [reflexivity|]. split.
  - destruct (@truthy_numbers_are_clamped plain_engine out_of_range _
                Temperature eq_refl) as [Hc _].
    exact (Hc (Num.of_int 5) eq_refl eq_refl).
  - destruct (@truthy_numbers_are_clamped plain_engine out_of_range _
                MaxTokens eq_refl) as [Hc _].
    exact (Hc (Num.of_int 999999) eq_refl eq_refl).
Defined.

(** A refused connection and a bad gateway get one and the same answer
    from the hardened server. *)
Lemma refused_and_gateway_get_one_answer :
  translate_error connection_refused = translate_error bad_gateway
  /\ translate_error connection_refused
     = reply 500 "An error occurred while processing your request"
         "server_error".
Proof.
  apply unexpected_errors_indistinguishable; split; reflexivity.
Defined.

(** * Further properties *)

(** ** More on strings *)
Section MoreStringFacts.

Lemma trimStart_idempotent (s : jsstring) :
  trimStart (trimStart s) = trimStart s.
Proof.
  induction s as [|c s IH]; simpl; [reflexivity|].
  destruct (is_white_space c) eqn:Hc; [exact IH|]. simpl. rewrite Hc.
  reflexivity.
Qed.

Lemma trimStart_length (s : jsstring) :
  (List.length (trimStart s) <= List.length s)%nat.
Proof.
  induction s as [|c s IH]; simpl; [lia|].
  destruct (is_white_space c); simpl; lia.
Qed.

Lemma trimStart_keeps (p : N -> bool) (s : jsstring) :
  forallb p s = true -> forallb p (trimStart s) = true.
Proof.
  induction s as [|c s IH]; simpl; [auto|].
  destruct (is_white_space c); simpl; [|auto].
  intros H. apply andb_prop in H as [_ H]. auto.
Qed.

(** White space is only ever removed before a character that stays. *)
Lemma trimStart_snoc (s : jsstring) (c : N) :
  is_white_space c = false -> trimStart (s ++ [c]) = trimStart s ++ [c].
Proof.
  intros Hc. induction s as [|d s IH]; simpl; [rewrite Hc; reflexivity|].
  destruct (is_white_space d); [exact IH | reflexivity].
Qed.

Lemma trimEnd_cons (c : N) (s : jsstring) :
  is_white_space c = false -> trimEnd (c :: s) = c :: trimEnd s.
Proof.
  intros Hc. unfold trimEnd. simpl. rewrite (trimStart_snoc _ _ Hc).
  rewrite rev_app_distr. reflexivity.
Qed.

Lemma trimEnd_idempotent (s : jsstring) : trimEnd (trimEnd s) = trimEnd s.
Proof.
  unfold trimEnd. rewrite rev_involutive, trimStart_idempotent. reflexivity.
Qed.

Lemma trimEnd_length (s : jsstring) :
  (List.length (trimEnd s) <= List.length s)%nat.
Proof.
  unfold trimEnd. rewrite length_rev.
  pose proof (trimStart_length (rev s)) as H. rewrite length_rev in H.
  exact H.
Qed.

Lemma trimEnd_keeps (p : N -> bool) (s : jsstring) :
  forallb p s = true -> forallb p (trimEnd s) = true.
Proof.
  intros H. unfold trimEnd. rewrite forallb_rev. apply trimStart_keeps.
  rewrite forallb_rev. exact H.
Qed.

(** Trimming what is trimmed changes nothing. *)
Lemma trim_idempotent (s : jsstring) : trim (trim s) = trim s.
Proof.
  unfold trim.
  assert (Hstart : trimStart (trimEnd (trimStart s)) = trimEnd (trimStart s)).
  { destruct (trimStart s) as [|c r] eqn:Hs; [reflexivity|].
    pose proof (trimStart_head _ _ _ Hs) as Hc.
    rewrite (trimEnd_cons _ _ Hc). simpl. rewrite Hc. reflexivity. }
  rewrite Hstart. apply trimEnd_idempotent.
Qed.

Lemma trim_length (s : jsstring) : str_length (trim s) <= str_length s.
Proof.
  unfold str_length, trim.
  pose proof (trimEnd_length (trimStart s)).
  pose proof (trimStart_length s). lia.
Qed.

Lemma trim_keeps (p : N -> bool) (s : jsstring) :
  forallb p s = true -> forallb p (trim s) = true.
Proof. intros H. apply trimEnd_keeps, trimStart_keeps, H. Qed.

(** No piece of [split] holds a comma. *)
Lemma split_pieces (s : jsstring) :
  Forall (fun piece => forallb (fun c => negb (N.eqb c comma)) piece = true)
         (split s).
Proof.
  induction s as [|c s IH]; simpl; [repeat constructor|].
  destruct (N.eqb c comma) eqn:Hc; [constructor; [reflexivity | exact IH]|].
  destruct (split s) as [|piece pieces]; [repeat constructor; simpl; now rewrite Hc|].
  inversion IH as [|? ? Hp Hps]; subst. constructor; [|exact Hps].
  simpl. rewrite Hc, Hp. reflexivity.
Qed.

Lemma split_not_empty (s : jsstring) : split s <> [].
Proof.
  destruct s as [|c s]; simpl; [discriminate|].
  destruct (N.eqb c comma); [discriminate|].
  destruct (split s); discriminate.
Qed.

(** Joining the pieces with commas gives the string back. *)
Lemma join_split (s : jsstring) : join (split s) = s.
Proof.
  induction s as [|c s IH]; simpl; [reflexivity|].
  destruct (N.eqb_spec c comma) as [->|Hc].
  - pose proof (split_not_empty s).
    simpl. destruct (split s) as [|piece pieces]; [contradiction|].
    simpl in *. rewrite IH. reflexivity.
  - pose proof (split_not_empty s).
    destruct (split s) as [|piece pieces]; [contradiction|].
    simpl in *. destruct pieces; simpl in *; rewrite <- IH; reflexivity.
Qed.

End MoreStringFacts.

(** ** What the validator accepts *)
Section AcceptanceFacts.

Lemma In_includes (l : list jsstring) (m : jsstring) :
  In m l -> includes l (JStr m) = true.
Proof.
  intros H. unfold includes. apply existsb_exists. exists m.
  split; [exact H|]. simpl. apply str_eqb_eq. reflexivity.
Qed.

Lemma userPrompt_rules (v : jsval) :
  userPrompt_missing v = false /\ userPrompt_too_long v = false <->
  exists s, v = JStr s /\ trim s <> [] /\ str_length s <= 8000.
Proof.
  split.
  - intros [H1 H2]. apply userPrompt_present in H1 as (s & -> & Hne).
    exists s. repeat split; try assumption.
    simpl in H2. apply Z.ltb_ge in H2. exact H2.
  - intros (s & -> & Hne & Hlen). split.
    + unfold userPrompt_missing. simpl.
      destruct s as [|c s]; [contradiction Hne; reflexivity|].
      destruct (trim (c :: s)); [contradiction Hne; reflexivity|].
      reflexivity.
    + simpl. apply Z.ltb_ge. exact Hlen.
Qed.

Lemma systemPrompt_rule (v : jsval) :
  systemPrompt_invalid v = false <->
  truthy v = false \/ exists s, v = JStr s /\ str_length s <= 4000.
Proof.
  unfold systemPrompt_invalid. split.
  - destruct (truthy v); [|auto]. destruct v; simpl; try discriminate.
    intros H. apply Z.ltb_ge in H. eauto.
  - intros [-> | (s & -> & H)]; [reflexivity|].
    apply Z.ltb_ge in H. simpl. rewrite H. apply andb_false_r.
Qed.

Lemma model_rule (v : jsval) :
  model_invalid v = false <->
  truthy v = false \/ exists m, v = JStr m /\ In m allowedModels.
Proof.
  unfold model_invalid. split.
  - destruct (truthy v); [|auto]. rewrite andb_true_l.
    intros H. apply negb_false_iff, includes_In in H. auto.
  - intros [-> | (m & -> & H)]; [reflexivity|].
    rewrite (In_includes _ _ H). apply andb_false_r.
Qed.

Lemma stopSequence_rule (v : jsval) :
  stopSequence_invalid v = false <->
  truthy v = false \/ exists s, v = JStr s.
Proof.
  split; [apply stopSequence_usable|].
  unfold stopSequence_invalid. intros [-> | (s & ->)]; [reflexivity|].
  apply andb_false_r.
Qed.

Lemma numeric_rule (b : body) :
  find out_of_bounds (numericValidations b) = None <->
  forall f, passes_bound (fst (bounds_of f)) (snd (bounds_of f))
              (get_field f b).
Proof.
  rewrite numeric_checks_pass, !out_of_bounds_passes. split.
  - intros (H1 & H2 & H3 & H4) []; assumption.
  - intros H. repeat split;
      [apply (H Temperature) | apply (H MaxTokens)
      | apply (H PresencePenalty) | apply (H FrequencyPenalty)].
Qed.

(** The validator passes a request on exactly when: the user prompt is a
    string that is not blank and has at most 8000 code units; the system
    prompt is falsy or a string of at most 4000 code units; the model is
    falsy or one of the three allowed names; each numeric parameter is
    absent, NaN or a number within its bound; and the stop sequence is falsy
    or a string.  Every other request is answered 400 [validation_error]. *)
Theorem validator_accepts_exactly (b : body) :
  (validateChatRequest b = Next b <-> acceptable b)
  /\ (~ acceptable b ->
      exists r, validateChatRequest b = Respond r
        /\ status r = 400 /\ has_type r "validation_error").
Proof.
  assert (Hiff : validateChatRequest b = Next b <-> acceptable b).
  { rewrite validate_next_iff. unfold acceptable.
    rewrite <- userPrompt_rules, <- systemPrompt_rule, <- model_rule,
      <- numeric_rule, <- stopSequence_rule. tauto. }
  split; [exact Hiff|].
  intros Hn. apply not_next_respond. intros req Hv. apply Hn, Hiff.
  pose proof Hv as Hr. apply validate_next in Hr as [-> _]. exact Hv.
Qed.

End AcceptanceFacts.

(** ** What the builder puts into the payload *)
Section PayloadFacts.

Context {engine : Engine} {openai : OpenAI}.

Lemma build_messages_inv (b : body) (messages : list Message.t) :
  build_messages b = Ok messages ->
  exists user, userPrompt b = JStr user
    /\ (messages = [Message.mk (lit "user") (trim user)]
        /\ (truthy (systemPrompt b) = false
            \/ exists sys, systemPrompt b = JStr sys /\ trim sys = [])
        \/ exists sys, systemPrompt b = JStr sys /\ trim sys <> []
             /\ messages = [Message.mk (lit "system") (trim sys);
                            Message.mk (lit "user") (trim user)]).
Proof.
  unfold build_messages. intros H.
  destruct (truthy (systemPrompt b)) eqn:Ht.
  - destruct (systemPrompt b) as [| | | |sys| |] eqn:Hs; try discriminate.
    cbn [call_trim bind] in H.
    destruct (userPrompt b) as [| | | |user| |];
      try (destruct (trim sys); discriminate).
    exists user. split; [reflexivity|].
    destruct (trim sys) as [|c r] eqn:Hsys;
      cbn [truthy bind call_trim app] in H; injection H as <-.
    + left. split; [reflexivity|]. right. exists sys. auto.
    + right. exists sys. split; [reflexivity|]. rewrite ?Hsys.
      split; [discriminate | reflexivity].
  - cbn [bind] in H.
    destruct (userPrompt b) as [| | | |user| |]; try discriminate.
    cbn [call_trim bind app] in H. injection H as <-.
    exists user. split; [reflexivity|]. left. auto.
Qed.

(** The message list of a payload is an optional system message followed
    by exactly one user message: the system message is there exactly when
    the system prompt is a string that is not blank; both hold the trimmed
    prompt, which trimming again leaves unchanged; and for a request that
    the validator passed on, no message is empty, the user message has at
    most 8000 and the system message at most 4000 code units. *)
Theorem messages_are_trimmed_prompts (b : body) (p : Payload.t) :
  requestBody b = Ok p ->
  exists user, userPrompt b = JStr user
    /\ (Payload.messages p = [Message.mk (lit "user") (trim user)]
        /\ (truthy (systemPrompt b) = false
            \/ exists sys, systemPrompt b = JStr sys /\ trim sys = [])
        \/ exists sys, systemPrompt b = JStr sys /\ trim sys <> []
             /\ str_length (trim sys) <= str_length sys
             /\ (validateChatRequest b = Next b -> str_length sys <= 4000)
             /\ Payload.messages p
                = [Message.mk (lit "system") (trim sys);
                   Message.mk (lit "user") (trim user)])
    /\ Forall (fun m => trim (Message.content m) = Message.content m)
         (Payload.messages p)
    /\ (validateChatRequest b = Next b ->
        trim user <> [] /\ str_length (trim user) <= 8000).
Proof.
  intros H. apply requestBody_fields in H as (_ & Hm & _).
  apply build_messages_inv in Hm as (user & Hu & Hcases).
  exists user. split; [exact Hu|]. split; [|split].
  - destruct Hcases as [[Hm Hs] | (sys & Hs & Hne & Hm)]; [left; auto|].
    right. exists sys. repeat split; try assumption.
    + apply trim_length.
    + intros Hv. apply validate_next in Hv as (_ & _ & _ & Hsys & _).
      rewrite Hs in Hsys. apply systemPrompt_rule in Hsys.
      destruct Hsys as [Hf | (s' & E & Hlen)].
      * destruct sys; [contradiction Hne; reflexivity | discriminate].
      * injection E as <-. exact Hlen.
  - destruct Hcases as [[-> _] | (sys & _ & _ & ->)];
      repeat constructor; simpl; apply trim_idempotent.
  - intros Hv. apply validate_next in Hv as (_ & H1 & H2 & _).
    destruct (proj1 (userPrompt_rules _) (conj H1 H2)) as (s & E & Hne & Hlen).
    rewrite Hu in E. injection E as <-. split; [exact Hne|].
    pose proof (trim_length user). lia.
Qed.

Lemma Forall_firstn {A : Type} (P : A -> Prop) (n : nat) (l : list A) :
  Forall P l -> Forall P (firstn n l).
Proof.
  revert l. induction n as [|n IH]; intros l H; [constructor|].
  destruct H; simpl; constructor; auto.
Qed.

Lemma firstn_at_most {A : Type} (n : nat) (l : list A) :
  (List.length (firstn n l) <= n)%nat.
Proof.
  revert l. induction n as [|n IH]; intros [|a l]; simpl; try lia.
  specialize (IH l). lia.
Qed.

Lemma Forall_filter {A : Type} (P : A -> Prop) (f : A -> bool) (l : list A) :
  Forall P l -> Forall (fun x => P x /\ f x = true) (filter f l).
Proof.
  induction 1 as [|a l Ha Hl IH]; simpl; [constructor|].
  destruct (f a) eqn:Hf; [constructor; auto | exact IH].
Qed.

(** The tokens of the specified pipeline. *)
Lemma stop_spec_tokens (s : jsstring) :
  (List.length (stop_spec s) <= 4)%nat
  /\ Forall (fun t => clean_token t /\ 0 < str_length t <= 100) (stop_spec s).
Proof.
  unfold stop_spec. split; [apply firstn_at_most|].
  apply Forall_firstn.
  assert (Hclean : Forall clean_token (map trim (split s))).
  { pose proof (split_pieces s) as H. induction H as [|piece ? Hp ? IH];
      simpl; constructor; [|exact IH].
    split; [apply trim_idempotent | apply trim_keeps, Hp]. }
  apply (Forall_filter _ (fun t => negb (str_length t =? 0))) in Hclean.
  apply (Forall_filter _ (fun t => str_length t <=? 100)) in Hclean.
  eapply Forall_impl; [|exact Hclean].
  intros t [[Hc Hne] Hlen]. split; [exact Hc|].
  apply negb_true_iff, Z.eqb_neq in Hne. apply Z.leb_le in Hlen.
  unfold str_length in *. lia.
Qed.

(** Whenever a payload carries [stop], the stop sequence of the request
    was a string, and [stop] holds between one and four tokens, each of
    them trimmed, free of commas, not empty and of at most 100 code
    units. *)
Theorem stop_tokens_are_clean (b : body) (p : Payload.t)
    (tokens : list jsstring) :
  requestBody b = Ok p ->
  Payload.stop p = Some tokens ->
  (exists s, stopSequence b = JStr s)
  /\ (1 <= List.length tokens <= 4)%nat
  /\ Forall (fun t => clean_token t /\ 0 < str_length t <= 100) tokens.
Proof.
  intros H Hstop. apply requestBody_fields in H as (_ & _ & _ & _ & _ & _ & H).
  rewrite Hstop in H.
  destruct (stopSequence b) as [| | | |s| |] eqn:Hs;
    try (unfold build_stop in H; simpl in H; discriminate);
    try (unfold build_stop in H; simpl in H;
         match type of H with
         | context [if ?c then _ else _] => destruct c; discriminate
         end).
  rewrite build_stop_string in H. injection H as H.
  unfold stop_field_spec in H.
  destruct (stop_spec_tokens s) as [Hlen Hall].
  destruct (stop_spec s) as [|t ts]; [discriminate|]. injection H as <-.
  split; [eauto|]. split; [simpl in *; lia | exact Hall].
Qed.

(** For a request that the validator passed on the route calls upstream
    exactly once, with the payload it logged just before, whether the call
    then succeeds or fails; for any other request it does not call. *)
Theorem one_upstream_call (b : body) :
  (forall r, validateChatRequest b = Respond r ->
     calls (snd (post_api_chat b)) = [])
  /\ (forall req, validateChatRequest b = Next req ->
      exists p rest,
        requestBody req = Ok p
        /\ snd (post_api_chat b) = LogRequest p :: Create p :: rest
        /\ calls (snd (post_api_chat b)) = [p]).
Proof.
  split.
  - intros r H. rewrite (post_api_chat_rejected b r H). reflexivity.
  - intros req H. destruct (accepted_builds b req H) as (_ & p & _ & _ & Hp & _).
    rewrite (post_api_chat_accepted b req H). unfold chat_handler.
    rewrite Hp. exists p. destruct (create p) as [c|e].
    + exists []. repeat split; assumption.
    + exists [LogError e]. repeat split; assumption.
Qed.

End PayloadFacts.

(** ** The answers of the hardened route *)
Section AnswerFacts.

Context {engine : Engine} {openai : OpenAI}.

Ltac listed := repeat first [left; reflexivity | right].

Lemma validator_answer_catalogued (b : body) (r : response) :
  validateChatRequest b = Respond r ->
  exists msg, In (400, "validation_error"%string, msg) catalogue
    /\ r = reply 400 msg "validation_error".
Proof.
  unfold validateChatRequest.
  destruct (userPrompt_missing _);
    [intros H; injection H as <-; eexists; split; [|reflexivity]; listed|].
  destruct (userPrompt_too_long _);
    [intros H; injection H as <-; eexists; split; [|reflexivity]; listed|].
  destruct (systemPrompt_invalid _);
    [intros H; injection H as <-; eexists; split; [|reflexivity]; listed|].
  destruct (model_invalid _);
    [intros H; injection H as <-; eexists; split; [|reflexivity]; listed|].
  destruct (find _ _) as [v|] eqn:Hfind.
  - apply find_some in Hfind as [Hin _]. intros H. injection H as <-.
    unfold numericValidations in Hin. simpl in Hin.
    destruct Hin as [<- | [<- | [<- | [<- | []]]]];
      eexists; (split; [|reflexivity]); listed.
  - destruct (stopSequence_invalid _); [|discriminate].
    intros H; injection H as <-; eexists; split; [|reflexivity]; listed.
Qed.

Lemma translate_error_catalogued (e : js_error) :
  exists code tag msg, In (code, tag, msg) catalogue
    /\ translate_error e = reply code msg tag.
Proof.
  unfold translate_error.
  repeat match goal with
         | |- context [if ?c then _ else _] => destruct c
         end;
  do 3 eexists; (split; [|reflexivity]); listed.
Qed.

(** The answer of the route is a catalogued failure, or the success
    envelope of a completion. *)
Lemma route_answer_cases (b : body) :
  (exists code tag msg, In (code, tag, msg) catalogue
     /\ fst (post_api_chat b) = reply code msg tag)
  \/ (exists req p c,
        validateChatRequest b = Next req /\ requestBody req = Ok p
        /\ create p = Resolved c
        /\ fst (post_api_chat b)
           = mkResponse 200 (Success (responseContent c) (Completion.usage c)
                               (Completion.model c))).
Proof.
  destruct (validateChatRequest b) as [r|req] eqn:Hv.
  - left. rewrite (post_api_chat_rejected b r Hv).
    destruct (validator_answer_catalogued b r Hv) as (msg & Hin & ->).
    eauto.
  - rewrite (post_api_chat_accepted b req Hv).
    destruct (accepted_builds b req Hv) as (_ & p & _ & _ & Hp & _).
    unfold chat_handler. rewrite Hp. destruct (create p) as [c|e] eqn:Hc.
    + right. exists req, p, c. auto.
    + left. apply translate_error_catalogued.
Qed.

Lemma key_help_in_catalogue :
  forallb (fun entry =>
             match entry with
             | (_, tag, msg) =>
                 Bool.eqb (App.showsKeyHelp (lit msg))
                          (String.eqb tag "invalid_key")
             end) catalogue = true.
Proof. vm_compute. reflexivity. Qed.

(** Every answer of the hardened route other than a 200 is one of fifteen
    fixed triples of status, type and message, so no text of the request or
    of an upstream error is ever sent back; and the message of such an
    answer contains 'API key', on which the page shows its help for
    configuring the key, exactly when the type is [invalid_key]. *)
Theorem failure_answers_are_catalogued (b : body) :
  (status (fst (post_api_chat b)) = 200
   /\ exists content usage served,
        json (fst (post_api_chat b)) = Success content usage served)
  \/ (exists code tag msg,
        In (code, tag, msg) catalogue
        /\ fst (post_api_chat b) = reply code msg tag
        /\ (App.showsKeyHelp (lit msg) = true <-> tag = "invalid_key"%string)).
Proof.
  destruct (route_answer_cases b) as [(code & tag & msg & Hin & Hr)
                                     | (req & p & c & _ & _ & _ & Hr)].
  - right. exists code, tag, msg.
    split; [exact Hin|]. split; [exact Hr|].
    pose proof key_help_in_catalogue as Hall.
    rewrite forallb_forall in Hall. specialize (Hall _ Hin).
    cbv beta iota in Hall. apply Bool.eqb_prop in Hall. rewrite Hall.
    apply String.eqb_eq.
  - left. rewrite Hr. split; [reflexivity|]. do 3 eexists. reflexivity.
Qed.

End AnswerFacts.

(** ** The allowed origins *)

Lemma isDevelopment_production :
  isDevelopment (Some (lit "production")) = false.
Proof. reflexivity. Qed.

(** Outside production the allowed origins are the two local ones whatever
    ALLOWED_ORIGINS holds.  In production, if ALLOWED_ORIGINS is set the
    origins are its pieces between commas, untrimmed: joining them with
    commas gives the variable back, no origin holds a comma, and there is
    always at least one, so an empty variable gives the single empty origin
    and not the fallback; the origins are the fallback
    'https://yourdomain.com' only when the variable is not set or names
    that very origin. *)
Theorem cors_origins_follow_the_environment
    (NODE_ENV ALLOWED_ORIGINS : option jsstring) :
  (NODE_ENV <> Some (lit "production") ->
     corsOrigin NODE_ENV ALLOWED_ORIGINS
     = [lit "http://localhost:5173"; lit "http://localhost:3000"])
  /\ (NODE_ENV = Some (lit "production") ->
      (forall s, ALLOWED_ORIGINS = Some s ->
         corsOrigin NODE_ENV ALLOWED_ORIGINS = split s
         /\ join (corsOrigin NODE_ENV ALLOWED_ORIGINS) = s
         /\ corsOrigin NODE_ENV ALLOWED_ORIGINS <> []
         /\ Forall (fun origin =>
                      forallb (fun c => negb (N.eqb c comma)) origin = true)
              (corsOrigin NODE_ENV ALLOWED_ORIGINS))
      /\ (ALLOWED_ORIGINS = Some (lit "") ->
          corsOrigin NODE_ENV ALLOWED_ORIGINS = [lit ""])
      /\ (corsOrigin NODE_ENV ALLOWED_ORIGINS = [lit "https://yourdomain.com"]
          <-> ALLOWED_ORIGINS = None
              \/ ALLOWED_ORIGINS = Some (lit "https://yourdomain.com"))).
Proof.
  split.
  - intros Hn. unfold corsOrigin, isDevelopment.
    destruct NODE_ENV as [v|]; [|reflexivity].
    destruct (str_eqb v (lit "production")) eqn:E; [|reflexivity].
    apply str_eqb_eq in E. subst. contradiction Hn. reflexivity.
  - intros ->. unfold corsOrigin. rewrite isDevelopment_production.
    split; [|split].
    + intros s ->. simpl. repeat split.
      * apply join_split.
      * apply split_not_empty.
      * apply split_pieces.
    + intros ->. reflexivity.
    + split.
      * destruct ALLOWED_ORIGINS as [s|]; [|auto]. simpl. intros H.
        right. f_equal. rewrite <- (join_split s), H. reflexivity.
      * intros [-> | ->]; reflexivity.
Qed.

(** ** The first server's route against the hardened one *)
Section LegacyFacts.

Context {engine : Engine} {openai : OpenAI}.

Lemma legacy_build_stop_string (s : jsstring) :
  LegacyRoute.build_stop (JStr s)
  = Ok match filter (fun t => 0 <? str_length t) (map trim (split s)) with
       | [] => None
       | tokens => Some tokens
       end.
Proof.
  unfold LegacyRoute.build_stop.
  destruct s as [|c s]; [reflexivity|].
  cbn [truthy call_trim bind].
  destruct (trim (c :: s)) as [|d t] eqn:Htrim.
  - apply trim_blank in Htrim. rewrite (split_blank _ Htrim).
    apply trim_blank in Htrim. cbn [map]. rewrite Htrim. reflexivity.
  - cbn [truthy call_split bind].
    destruct (filter _ _) as [|tok toks]; [reflexivity|].
    cbn [List.length]. rewrite Nat2Z.inj_succ.
    destruct (Z.eqb_spec (Z.succ (Z.of_nat (List.length toks))) 0); [lia|].
    reflexivity.
Qed.

(** The hardened [stop] is the first server's, capped. *)
Lemma build_stop_capped (v : jsval) (stop : option (list jsstring)) :
  build_stop v = Ok stop ->
  exists legacy, LegacyRoute.build_stop v = Ok legacy /\ stop = capped legacy.
Proof.
  destruct v as [| | | |s| |];
    try (unfold build_stop, LegacyRoute.build_stop; simpl;
         intros H; injection H as <-; exists None; split; reflexivity);
    try (unfold build_stop; simpl; discriminate);
    try (unfold build_stop, LegacyRoute.build_stop; simpl;
         match goal with
         | |- context [if ?c then _ else _] => destruct c
         end;
         solve [discriminate
               | intros H; injection H as <-; exists None; split; reflexivity]).
  rewrite build_stop_string, legacy_build_stop_string.
  intros H. injection H as <-. eexists. split; [reflexivity|].
  unfold stop_field_spec, stop_spec, capped.
  assert (Hfun : filter (fun t => negb (str_length t =? 0)) (map trim (split s))
                 = filter (fun t => 0 <? str_length t) (map trim (split s))).
  { apply filter_ext. intros t. unfold str_length.
    destruct (Z.eqb_spec (Z.of_nat (List.length t)) 0);
      destruct (Z.ltb_spec 0 (Z.of_nat (List.length t))); simpl; lia. }
  rewrite Hfun. destruct (filter (fun t => 0 <? str_length t) _); reflexivity.
Qed.

(** Whatever payload the hardened server builds for a request, the first
    server builds one for it too, with the same model, messages and numeric
    fields, and the hardened [stop] is the first server's with the tokens
    over 100 code units dropped and the rest cut to four; so when a
    request passes the validator, its stop tokens are within those limits
    and the upstream call succeeds, the two servers give the same answer
    after the same upstream call. *)
Theorem first_server_builds_the_same_payload (b : body) (p : Payload.t) :
  requestBody b = Ok p ->
  exists legacy,
    LegacyRoute.requestBody b = Ok legacy
    /\ Payload.model legacy = Payload.model p
    /\ Payload.messages legacy = Payload.messages p
    /\ Payload.temperature legacy = Payload.temperature p
    /\ Payload.max_tokens legacy = Payload.max_tokens p
    /\ Payload.presence_penalty legacy = Payload.presence_penalty p
    /\ Payload.frequency_penalty legacy = Payload.frequency_penalty p
    /\ Payload.stop p = capped (Payload.stop legacy)
    /\ (validateChatRequest b = Next b ->
        Payload.stop legacy = Payload.stop p ->
        forall c, create p = Resolved c ->
          LegacyRoute.post_api_chat b = post_api_chat b).
Proof.
  unfold requestBody, LegacyRoute.requestBody, bind.
  destruct (build_messages b) as [messages|] eqn:Hm; [|discriminate].
  destruct (build_stop (stopSequence b)) as [stop|] eqn:Hstop; [|discriminate].
  destruct (build_stop_capped _ _ Hstop) as (legacy & Hl & Hcap).
  intros H. injection H as <-. rewrite Hl.
  eexists. split; [reflexivity|]. simpl. repeat split; try assumption.
  intros Hv Heq c Hc. subst legacy.
  rewrite (post_api_chat_accepted b b Hv).
  apply validate_next in Hv as (_ & Hu & _).
  apply userPrompt_present in Hu as (s & Hu & Hne).
  unfold LegacyRoute.post_api_chat, chat_handler, LegacyRoute.prompt_missing,
    requestBody, LegacyRoute.requestBody, bind in *.
  rewrite Hu in *. destruct s as [|ch s]; [contradiction Hne; reflexivity|].
  cbn [truthy negb call_trim].
  destruct (trim (ch :: s)) as [|d t]; [contradiction Hne; reflexivity|].
  cbn [truthy negb].
  rewrite Hm, Hl, Hstop, Hc. reflexivity.
Qed.

Lemma type_error_is_unexpected (text : string) :
  unexpected (TypeError text).
Proof. split; reflexivity. Qed.

(** The first server on the user prompt: a prompt that is falsy or a blank
    string is answered 400 'User prompt is required', without [type] and
    without an upstream call; a truthy prompt that is not a string makes
    [trim] throw inside [try], and the answer is a 500 [server_error] that
    carries the message of the TypeError, again without an upstream call,
    where the hardened server answers 400 [validation_error]. *)
Theorem first_server_prompt_check (b : body) :
  (truthy (userPrompt b) = false
   \/ (exists s, userPrompt b = JStr s /\ trim s = []) ->
   LegacyRoute.post_api_chat b
   = (mkResponse 400 (Failure (JStr (lit "User prompt is required")) None),
      []))
  /\ (truthy (userPrompt b) = true ->
      (forall s, userPrompt b <> JStr s) ->
      (exists e, name e = JStr (lit "TypeError")
         /\ LegacyRoute.post_api_chat b
            = (mkResponse 500 (Failure (message e) (Some (lit "server_error"))),
               [LogError e]))
      /\ exists r, validateChatRequest b = Respond r
           /\ status r = 400 /\ has_type r "validation_error").
Proof.
  split.
  - unfold LegacyRoute.post_api_chat, LegacyRoute.prompt_missing.
    intros [Hf | (s & Hs & Ht)].
    + rewrite Hf. reflexivity.
    + rewrite Hs. destruct s as [|c s]; [reflexivity|].
      cbn [truthy negb call_trim bind]. rewrite Ht. reflexivity.
  - intros Ht Hs. split.
    + unfold LegacyRoute.post_api_chat, LegacyRoute.prompt_missing.
      rewrite Ht. cbn [negb].
      destruct (userPrompt b) as [| | | |s| |] eqn:Hu;
        try discriminate; try (contradiction (Hs s); reflexivity);
        eexists; (split; [|reflexivity]); reflexivity.
    + apply not_next_respond. intros req Hv.
      apply validate_next in Hv as (_ & Hu & _).
      apply userPrompt_present in Hu as (s & Hu & _).
      exact (Hs s Hu).
Qed.

End LegacyFacts.

(** ** The page against the hardened server *)
Section PageFacts.

Context {engine : Engine} {openai : OpenAI}.

Lemma truthy_trim (s : jsstring) :
  truthy (JStr (trim s)) = true <-> trim s <> [].
Proof.
  simpl. destruct (trim s); split; try discriminate; try reflexivity.
  intros H. contradiction H. reflexivity.
Qed.

(** The page sends a request exactly when the prompt is not blank, which is
    exactly when the first rule of the validator lets the request through;
    on a blank prompt it sets its own error and changes nothing else, and
    otherwise it sends one request and is no longer running once the call
    has settled, whatever came back. *)
Theorem page_sends_only_a_present_prompt (fetch : body -> fetched)
    (st : App.state) :
  (trim (App.userPrompt st) = []
   <-> userPrompt_missing (userPrompt (App.requestOf st)) = true)
  /\ (trim (App.userPrompt st) = [] ->
      App.handleRunPrompt fetch st
      = (App.setResult (App.output st) (App.isRunning st)
           (JStr (lit "Please enter a user prompt")) (App.usage st) st,
         []))
  /\ (trim (App.userPrompt st) <> [] ->
      snd (App.handleRunPrompt fetch st) = [App.requestOf st]
      /\ App.isRunning (fst (App.handleRunPrompt fetch st)) = false).
Proof.
  split; [|split].
  - unfold userPrompt_missing. simpl.
    destruct (App.userPrompt st) as [|c s] eqn:Hu; [split; reflexivity|].
    simpl. destruct (trim (c :: s)); split; try discriminate; reflexivity.
  - intros H. unfold App.handleRunPrompt. rewrite H. reflexivity.
  - intros H. apply truthy_trim in H. unfold App.handleRunPrompt.
    rewrite H. cbn [negb].
    destruct (fetch (App.requestOf st)) as [r|]; [|split; reflexivity].
    destruct (truthy _ && truthy _); split; reflexivity.
Qed.

Lemma wire_number_within (lo hi : Z) (n : Num.number) :
  Num.within (Num.of_int lo) (Num.of_int hi) n ->
  within_bound lo hi (wire_number n).
Proof.
  unfold within_bound, Num.within, Num.of_int.
  destruct n; simpl; try (intros (? & ? & ?); discriminate).
  - intros (H1 & H2 & _). exists (Num.Fin 0). repeat split; assumption.
  - intros (H1 & H2 & _). exists (Num.Fin k). repeat split; assumption.
Qed.

Lemma requestOf_field (f : numeric_field) (st : App.state) :
  get_field f (App.requestOf st) = wire_number (App.field f st).
Proof. destruct f; reflexivity. Qed.

(** As long as the numeric fields of the page are within the ranges of its
    sliders and the model is one of the options of its select, every
    request it sends for a prompt of at most 8000 code units, with a system
    prompt of at most 4000, is passed on by the validator. *)
Theorem controls_keep_requests_acceptable (st : App.state) :
  within_controls st -> text_fits st ->
  validateChatRequest (App.requestOf st) = Next (App.requestOf st).
Proof.
  intros [Hmodel Hnum] (Hne & Hup & Hsp). apply validate_next_iff.
  assert (Hprompt : userPrompt_missing (userPrompt (App.requestOf st)) = false
                    /\ userPrompt_too_long (userPrompt (App.requestOf st))
                       = false).
  { apply userPrompt_rules. exists (App.userPrompt st). auto. }
  destruct Hprompt as [H1 H2].
  split; [exact H1|]. split; [exact H2|]. split; [|split; [|split]].
  - apply systemPrompt_rule. right. exists (App.systemPrompt st). auto.
  - apply model_rule. right. exists (App.model st). auto.
  - apply numeric_rule. intros f. right. right. rewrite requestOf_field.
    apply wire_number_within, Hnum.
  - apply stopSequence_rule. right. eexists. reflexivity.
Qed.

(** A numeric field of the page that is NaN or infinite is sent as [null],
    and the validator answers such a request 400 [validation_error]: the
    NaN that the validator would let through never reaches it from the
    page. *)
Theorem page_sends_null_for_nan (f : numeric_field) (st : App.state) :
  App.field f st = Num.NaN \/ App.field f st = Num.PosInf
  \/ App.field f st = Num.NegInf ->
  get_field f (App.requestOf st) = JNull
  /\ exists r, validateChatRequest (App.requestOf st) = Respond r
       /\ status r = 400 /\ has_type r "validation_error".
Proof.
  intros H.
  assert (Hnull : get_field f (App.requestOf st) = JNull).
  { rewrite requestOf_field. destruct H as [-> | [-> | ->]]; reflexivity. }
  split; [exact Hnull|].
  apply not_next_respond. intros req Hv.
  apply validate_next in Hv as (_ & _ & _ & _ & _ & Hn & _).
  pose proof (proj1 (numeric_rule _) Hn f) as Hf. rewrite Hnull in Hf.
  destruct Hf as [Hf | [Hf | (n & Hf & _)]]; discriminate.
Qed.

Lemma catalogue_messages_not_empty :
  forallb (fun entry => match entry with
                        | (_, _, msg) => truthy (JStr (lit msg))
                        end) catalogue = true.
Proof. vm_compute. reflexivity. Qed.

(** With a typed upstream the content of a success envelope is a string
    that is not empty. *)
Lemma responseContent_text (c : Completion.t) :
  Forall (fun content =>
            content = JNull \/ content = JUndefined
            \/ exists s, content = JStr s) (Completion.choices c) ->
  exists text, text <> [] /\ responseContent c = JStr text.
Proof.
  unfold responseContent, js_or. intros H.
  destruct (Completion.choices c) as [|first rest]; simpl.
  - eexists. split; [|reflexivity]. discriminate.
  - inversion H as [|? ? Hfirst _]; subst.
    destruct Hfirst as [-> | [-> | (s & ->)]]; simpl;
      try (eexists; split; [|reflexivity]; discriminate).
    destruct s as [|ch s]; eexists; (split; [|reflexivity]); discriminate.
Qed.

(** When the page runs a prompt that is not blank and the hardened route
    answers it, with upstream completions typed as documented, the page
    ends up showing either the generated text, never empty, with no error,
    or no output and as error one of the fifteen messages of the server:
    its own fallback 'An unknown error occurred' does not appear. *)
Theorem page_shows_text_or_a_server_message (st : App.state) :
  typed_upstream openai ->
  trim (App.userPrompt st) <> [] ->
  let shown := fst (App.handleRunPrompt hardened_server st) in
  App.isRunning shown = false
  /\ ((exists text, text <> [] /\ App.output shown = JStr text
         /\ App.error shown = JNull)
      \/ (exists code tag msg, In (code, tag, msg) catalogue
            /\ App.output shown = JStr (lit "")
            /\ App.error shown = JStr (lit msg)
            /\ App.usage shown = JNull)).
Proof.
  intros Htyped Hne. apply truthy_trim in Hne.
  unfold App.handleRunPrompt, hardened_server. rewrite Hne. cbn [negb].
  destruct (route_answer_cases (App.requestOf st))
    as [(code & tag & msg & Hin & ->) | (req & p & c & _ & _ & Hc & ->)].
  - pose proof catalogue_messages_not_empty as Hall.
    rewrite forallb_forall in Hall. specialize (Hall _ Hin).
    cbv beta iota in Hall. simpl in Hall.
    unfold received, reply, js_or. simpl.
    destruct (lit msg) as [|ch rest] eqn:Hmsg; [discriminate|].
    split; [reflexivity|]. right. exists code, tag, msg.
    rewrite Hmsg. auto.
  - destruct (responseContent_text c (Htyped p c Hc)) as (text & Htext & Hr).
    unfold received. cbn [json]. rewrite Hr.
    cbn [Data.success Data.content Data.usage wire truthy andb].
    destruct text as [|ch text]; [contradiction Htext; reflexivity|].
    simpl. split; [reflexivity|]. left. eexists. repeat split. discriminate.
Qed.

(** The numeric fields of the page stay within the ranges of its controls,
    and the model among the options, under all that its buttons do: the
    initial state is within them, [clearAll] returns into them,
    [applyTestConfig] with any of the three presets and [handleRunPrompt]
    keep them; the latter two leave the prompts, the stop sequence and the
    model as the user set them. *)
Theorem controls_are_kept (fetch : body -> fetched) (st : App.state) :
  within_controls App.initial
  /\ within_controls (App.clearAll st)
  /\ (forall config, In config App.testConfigs ->
        (within_controls st -> within_controls (App.applyTestConfig config st))
        /\ App.requestOf (App.applyTestConfig config st)
           = with_frequencyPenalty
               (wire_number (TestConfig.frequencyPenalty config))
               (with_presencePenalty
                  (wire_number (TestConfig.presencePenalty config))
                  (with_maxTokens (wire_number (TestConfig.maxTokens config))
                     (with_temperature
                        (wire_number (TestConfig.temperature config))
                        (App.requestOf st)))))
  /\ (within_controls st ->
      within_controls (fst (App.handleRunPrompt fetch st)))
  /\ App.requestOf (fst (App.handleRunPrompt fetch st)) = App.requestOf st.
Proof.
  assert (Hinit : within_controls App.initial).
  { split; [left; reflexivity|]. intros []; vm_compute; auto. }
  split; [exact Hinit|]. split; [exact Hinit|]. split; [|split].
  - intros config Hin. split; [|reflexivity].
    intros [Hmodel _]. split; [exact Hmodel|].
    simpl in Hin. destruct Hin as [<- | [<- | [<- | []]]];
      intros []; vm_compute; auto.
  - intros H. unfold App.handleRunPrompt.
    destruct (negb _); [exact H|].
    destruct (fetch _) as [r|]; [|exact H].
    destruct (truthy _ && truthy _); exact H.
  - unfold App.handleRunPrompt.
    destruct (negb _); [reflexivity|].
    destruct (fetch _) as [r|]; [|reflexivity].
    destruct (truthy _ && truthy _); reflexivity.
Qed.

End PageFacts.

(** ** The further properties at concrete requests *)

(** The request [guided] is passed on. *)
Lemma guided_is_accepted : validateChatRequest guided = Next guided.
Proof.
  apply (validator_accepts_exactly guided).
  split; [|split; [|split; [|split]]].
  - eexists. split; [reflexivity|]. split; [vm_compute; discriminate|].
    apply Z.leb_le. reflexivity.
  - right. eexists. split; [reflexivity|]. apply Z.leb_le. reflexivity.
  - left. reflexivity.
  - intros []; left; reflexivity.
  - right. eexists. reflexivity.
Defined.

(** Its messages hold the trimmed prompts. *)
Lemma guided_messages_are_trimmed :
  exists p, @requestBody plain_engine guided = Ok p
    /\ Forall (fun m => trim (Message.content m) = Message.content m)
         (Payload.messages p).
Proof.
  eexists. split; [reflexivity|].
  destruct (@messages_are_trimmed_prompts plain_engine guided _ eq_refl)
    as (user & _ & _ & H & _).
  exact H.
Defined.

(** Its stop sequence " END , a,b,c,d" gives four clean tokens. *)
Lemma guided_stop_tokens_are_clean :
  exists p tokens, @requestBody plain_engine guided = Ok p
    /\ Payload.stop p = Some tokens
    /\ (1 <= List.length tokens <= 4)%nat
    /\ Forall (fun t => clean_token t /\ 0 < str_length t <= 100) tokens.
Proof.
  do 2 eexists. split; [reflexivity|]. split; [reflexivity|].
  apply (@stop_tokens_are_clean plain_engine guided _ _ eq_refl eq_refl).
Defined.

(** One upstream call for it even when the call fails. *)
Lemma guided_is_sent_once_on_failure :
  exists p, calls (snd (@post_api_chat plain_engine (failing quota_error)
                          guided)) = [p].
Proof.
  destruct (@one_upstream_call plain_engine (failing quota_error) guided)
    as [_ H].
  destruct (H guided eq_refl) as (p & rest & _ & _ & Hcalls).
  exists p. exact Hcalls.
Defined.

(** Two origins in production, the second with its leading blank. *)
Lemma two_origins_in_production :
  corsOrigin (Some (lit "production"))
    (Some (lit "https://a.example, https://b.example"))
  = [lit "https://a.example"; lit " https://b.example"].
Proof.
  destruct (cors_origins_follow_the_environment (Some (lit "production"))
              (Some (lit "https://a.example, https://b.example")))
    as [_ H].
  destruct (H eq_refl) as [Hs _].
  destruct (Hs _ eq_refl) as [E _]. rewrite E. reflexivity.
Defined.

(** The first server builds the payload of [guided] with five stop
    tokens, of which the hardened server keeps four. *)
Lemma guided_on_the_first_server :
  exists hardened legacy,
    @requestBody plain_engine guided = Ok hardened
    /\ @LegacyRoute.requestBody plain_engine guided = Ok legacy
    /\ Payload.messages legacy = Payload.messages hardened
    /\ Payload.stop hardened = capped (Payload.stop legacy).
Proof.
  eexists.
  destruct (@first_server_builds_the_same_payload plain_engine answering
              guided _ eq_refl)
    as (legacy & Hl & _ & Hm & _ & _ & _ & _ & Hs & _).
  exists legacy. split; [reflexivity|]. auto.
Defined.

(** A prompt that is the number 5 on the first server. *)
Lemma numeric_prompt_on_the_first_server :
  exists e, name e = JStr (lit "TypeError")
    /\ @LegacyRoute.post_api_chat plain_engine answering numeric_prompt
       = (mkResponse 500 (Failure (message e) (Some (lit "server_error"))),
          [LogError e]).
Proof.
  destruct (@first_server_prompt_check plain_engine answering numeric_prompt)
    as [_ H].
  apply H; [reflexivity | discriminate].
Defined.

(** The page with nothing typed sends nothing. *)
Lemma empty_page_sends_nothing :
  snd (App.handleRunPrompt (@hardened_server plain_engine answering)
         (typed "")) = [].
Proof.
  destruct (page_sends_only_a_present_prompt
              (@hardened_server plain_engine answering) (typed ""))
    as (_ & H & _).
  rewrite (H eq_refl). reflexivity.
Defined.

(** The page's defaults with a prompt typed are passed on. *)
Lemma typed_prompt_is_accepted :
  validateChatRequest (App.requestOf (typed "Explain gravity"))
  = Next (App.requestOf (typed "Explain gravity")).
Proof.
  apply (controls_keep_requests_acceptable (typed "Explain gravity")).
  - split; [left; reflexivity|].
    intros []; vm_compute; repeat split; reflexivity.
  - split; [vm_compute; discriminate|].
    split; apply Z.leb_le; reflexivity.
Defined.

(** A NaN temperature on the page is refused by the server. *)
Lemma nan_on_the_page_is_rejected :
  get_field Temperature (App.requestOf (typed_with_nan "Explain gravity"))
  = JNull
  /\ exists r,
       validateChatRequest (App.requestOf (typed_with_nan "Explain gravity"))
       = Respond r
       /\ status r = 400 /\ has_type r "validation_error".
Proof.
  apply (page_sends_null_for_nan Temperature
           (typed_with_nan "Explain gravity")).
  left. reflexivity.
Defined.

Lemma answering_is_typed : typed_upstream answering.
Proof.
  intros p c H. injection H as <-. simpl.
  constructor; [|constructor]. right. right. eexists. reflexivity.
Defined.

(** The page shows the text of the completion. *)
Lemma typed_prompt_is_answered :
  App.isRunning
    (fst (App.handleRunPrompt (@hardened_server plain_engine answering)
            (typed "Explain gravity"))) = false
  /\ App.output
       (fst (App.handleRunPrompt (@hardened_server plain_engine answering)
               (typed "Explain gravity")))
     = JStr (lit "Gravity pulls masses together.").
Proof.
  destruct (@page_shows_text_or_a_server_message plain_engine answering
              (typed "Explain gravity") answering_is_typed)
    as [Hrun _].
  - vm_compute. discriminate.
  - split; [exact Hrun | reflexivity].
Defined.

(** The preset 'Creative & Expansive' applied to the defaults. *)
Lemma creative_preset_stays_within_controls :
  within_controls
    (App.applyTestConfig
       (TestConfig.mk "Creative & Expansive"
          "High creativity, longer responses"
          App.lit_1_2 (Num.of_int 300) (Num.of_int 0) App.lit_1_5)
       App.initial).
Proof.
  destruct (controls_are_kept (@hardened_server plain_engine answering)
              App.initial) as (Hinit & _ & H & _).
  apply H; [right; right; left; reflexivity | exact Hinit].
Defined.

(** ** The numeric rule on the requests the server receives *)

(** C3: on every request parsed from JSON, the validator passes the
    request on only if each numeric parameter that is present is a number
    within its documented bound; a present value that is not such a number
    (not a number at all, or a number out of range) is answered 400
    [validation_error]; and the validator passes the request on as it came:
    it never clamps. *)
Theorem validator_rejects_out_of_bound_numbers (b : body) :
  json_parsed b ->
  (forall req, validateChatRequest b = Next req ->
     req = b
     /\ forall f, get_field f b = JUndefined
                  \/ within_bound (fst (bounds_of f)) (snd (bounds_of f))
                       (get_field f b))
  /\ (forall f, get_field f b <> JUndefined ->
        ~ within_bound (fst (bounds_of f)) (snd (bounds_of f))
            (get_field f b) ->
        exists r, validateChatRequest b = Respond r
          /\ status r = 400 /\ has_type r "validation_error").
Proof.
  intros Hjson.
  assert (Hpass : forall req f, validateChatRequest b = Next req ->
            get_field f b = JUndefined
            \/ within_bound (fst (bounds_of f)) (snd (bounds_of f))
                 (get_field f b)).
  { intros req f Hv.
    apply validate_next in Hv as (_ & _ & _ & _ & _ & Hn & _).
    destruct (proj1 (numeric_rule b) Hn f) as [Hu | [Hnan | Hin]].
    - left. exact Hu.
    - contradiction (Hjson f).
    - right. exact Hin. }
  split.
  - intros req Hv. split; [|intros f; exact (Hpass req f Hv)].
    apply validate_next in Hv as [Hreq _]. exact Hreq.
  - intros f Hpresent Hout. apply not_next_respond. intros req Hv.
    destruct (Hpass req f Hv) as [Hu | Hin]; [exact (Hpresent Hu)|].
    exact (Hout Hin).
Qed.

(** A temperature of 5, as JSON carries it, is answered 400. *)
Lemma hot_request_is_rejected :
  exists r, validateChatRequest hot = Respond r
    /\ status r = 400 /\ has_type r "validation_error".
Proof.
  assert (Hjson : json_parsed hot) by (intros []; discriminate).
  destruct (validator_rejects_out_of_bound_numbers hot Hjson) as [_ H].
  apply (H Temperature); [discriminate|].
  intros (n & E & _ & Hhi & _). injection E as <-.
  vm_compute in Hhi. discriminate.
Defined.
